(** * Bitget webhook relay: symbol normalisation, duplicate guard,
      all-in position sizing and the webhook handler.

    Shallow embedding of the JavaScript sources (the "enhanced" server of
    src/unnamed/part_000, and the long-only server of src/server.js).

    Modelling conventions.
    - A JS string is a [string] of code units; the model is exact on ASCII
      input (code units below 128), which is where [toUpperCase],
      [toLowerCase] and [trim] act character by character.  The byte
      length of [Buffer.from(s)] is taken on all the code units a [string]
      can hold (0 to 255, what an HTTP header value is made of).
    - [exchange.markets] is looked at through its own keys.  The names
      every JS object inherits ([objectPrototypeKeys]) all contain a
      lower-case letter, so this is exact for every upper-case symbol.
    - A JS number is an IEEE-754 binary64 value: Rocq's primitive [float].
    - [null]/[undefined] are [None].
    - An [await]ed exchange call that rejects, and a [throw], are the
      [Throw] case of [Result].
    - [Date.now()] is an explicit argument (milliseconds, in [Z]).
    - An [Exchange] value holds what the ccxt client answers during one
      call of the code: [exchange.markets] as it stands once
      [loadMarkets] has been awaited, and the answer of each fetch.
    - Logging, and the diagnostic fetches after an order whose results
      are only logged, are left out.
    - The long-only server has its own gateway record
      ([LongOnlyServer.Exchange]): it also reads positions and falls back
      from [createMarketOrder] to [createOrder].  Its handler returns the
      response together with the order requests it sent.
    - [loadMarkets] is modelled on its own, over the answers of the
      successive [exchange.loadMarkets] calls. *)

From Stdlib Require Import ZArith Ascii String List Bool Lia Floats.
From stdpp Require Import gmap strings.
From Equations Require Import Equations.

Set Warnings "-inexact-float".

Local Open Scope list_scope.
Local Open Scope string_scope.

(** ** JavaScript string primitives used by the sources *)

Module Js.

(** WhiteSpace and LineTerminator code units of the ASCII range
    (TAB, LF, VT, FF, CR, SP): what [String.prototype.trim] and the
    regular expression class [\s] match there. *)
Definition isWhiteSpace (c : ascii) : bool :=
  let n := nat_of_ascii c in
  ((9 <=? n)%nat && (n <=? 13)%nat) || (n =? 32)%nat.

Definition isAsciiChar (c : ascii) : bool := (nat_of_ascii c <? 128)%nat.

Fixpoint isAscii (s : string) : bool :=
  match s with
  | EmptyString => true
  | String c r => isAsciiChar c && isAscii r
  end.

Definition isEmpty (s : string) : bool :=
  match s with EmptyString => true | String _ _ => false end.

Fixpoint trimStart (s : string) : string :=
  match s with
  | EmptyString => EmptyString
  | String c r => if isWhiteSpace c then trimStart r else s
  end.

Fixpoint trimEnd (s : string) : string :=
  match s with
  | EmptyString => EmptyString
  | String c r =>
      let r' := trimEnd r in
      if isWhiteSpace c && isEmpty r' then EmptyString else String c r'
  end.

(** [s.trim()] *)
Definition trim (s : string) : string := trimEnd (trimStart s).

(** [s.replace(c, r)] for a one-character string pattern [c]: only the
    first occurrence is replaced. *)
Fixpoint replace (c : ascii) (r : string) (s : string) : string :=
  match s with
  | EmptyString => EmptyString
  | String x t => if Ascii.eqb x c then r ++ t else String x (replace c r t)
  end.

(** [s.includes(c)] for a one-character string [c]. *)
Fixpoint includes (c : ascii) (s : string) : bool :=
  match s with
  | EmptyString => false
  | String x t => Ascii.eqb x c || includes c t
  end.

(** [s.slice(0, n)] *)
Fixpoint sliceTo (n : nat) (s : string) : string :=
  match n, s with
  | S k, String c r => String c (sliceTo k r)
  | _, _ => EmptyString
  end.

(** [s.slice(n)] *)
Fixpoint sliceFrom (n : nat) (s : string) : string :=
  match n, s with
  | S k, String _ r => sliceFrom k r
  | _, _ => s
  end.

Definition upperChar (c : ascii) : ascii :=
  let n := nat_of_ascii c in
  if (97 <=? n)%nat && (n <=? 122)%nat then ascii_of_nat (n - 32) else c.

Definition lowerChar (c : ascii) : ascii :=
  let n := nat_of_ascii c in
  if (65 <=? n)%nat && (n <=? 90)%nat then ascii_of_nat (n + 32) else c.

Fixpoint mapChars (f : ascii -> ascii) (s : string) : string :=
  match s with
  | EmptyString => EmptyString
  | String c r => String (f c) (mapChars f r)
  end.

(** [s.toUpperCase()] and [s.toLowerCase()] *)
Definition toUpperCase : string -> string := mapChars upperChar.
Definition toLowerCase : string -> string := mapChars lowerChar.

(** [s.split(c)] for a one-character separator: never the empty list. *)
Fixpoint split (c : ascii) (s : string) : list string :=
  match s with
  | EmptyString => [EmptyString]
  | String x t =>
      if Ascii.eqb x c then EmptyString :: split c t
      else match split c t with
           | h :: rest => String x h :: rest
           | [] => [String x EmptyString]
           end
  end.

(** [text.split(/\s+/).filter(Boolean)]: the maximal runs of
    non-whitespace characters.  [cur] is the run being read, reversed. *)
Fixpoint tokensFrom (cur : list ascii) (s : string) : list string :=
  let flush (k : list string) :=
    match cur with
    | [] => k
    | _ => string_of_list_ascii (rev cur) :: k
    end in
  match s with
  | EmptyString => flush []
  | String c r =>
      if isWhiteSpace c then flush (tokensFrom [] r)
      else tokensFrom (c :: cur) r
  end.

Definition tokens (s : string) : list string := tokensFrom [] s.

(** Truthiness of a string-or-undefined value. *)
Definition truthyStr (o : option string) : bool :=
  match o with
  | None => false
  | Some s => negb (isEmpty s)
  end.

(** Truthiness of a number: everything but [0], [-0] and [NaN]. *)
Definition truthyNum (x : float) : bool :=
  negb (PrimFloat.eqb x 0%float) && PrimFloat.eqb x x.

(** [isNaN(x)] on a number. *)
Definition isNaN (x : float) : bool := negb (PrimFloat.eqb x x).

(** Truthiness of a number-or-undefined value. *)
Definition truthyOptNum (o : option float) : bool :=
  match o with
  | None => false
  | Some x => truthyNum x
  end.

(** [a || b] on number-or-undefined values. *)
Definition orElse (a b : option float) : option float :=
  if truthyOptNum a then a else b.

(** [Buffer.from(s).length]: the length of the UTF-8 encoding of [s], one
    byte for a code unit below 128 and two for a code unit from 128 to
    255. *)
Fixpoint byteLength (s : string) : nat :=
  match s with
  | EmptyString => 0
  | String c r => (if isAsciiChar c then 1 else 2) + byteLength r
  end.

(** Number of occurrences of a character. *)
Fixpoint count (c : ascii) (s : string) : nat :=
  match s with
  | EmptyString => 0
  | String x t => (if Ascii.eqb x c then 1 else 0) + count c t
  end.

End Js.

(** ** Symbol normalisation *)

(** [normalizeSymbol] of the enhanced server (part_000, lines 112-120);
    the two "LIVE" servers have the same function. *)
Definition normalizeSymbol (inputSymbol : option string) : option string :=
  if negb (Js.truthyStr inputSymbol) then None
  else
    let s := Js.trim (default "" inputSymbol) in
    let s := Js.replace "_" "/" (Js.replace "-" "/" s) in
    let s :=
      if negb (Js.includes "/" s) && (6 <=? String.length s)%nat
      then Js.sliceTo 3 s ++ "/" ++ Js.sliceFrom 3 s
      else s in
    Some (Js.toUpperCase s).

Module LongOnly.

(** [normalizeSymbol] of the long-only server (server.js, lines 64-70):
    a falsy argument yields the configured default symbol. *)
Definition normalizeSymbol (DEFAULT_SYMBOL : string) (s : option string)
  : option string :=
  if negb (Js.truthyStr s) then Some DEFAULT_SYMBOL
  else
    let sym := Js.trim (default "" s) in
    let sym := Js.replace "_" "/" (Js.replace "-" "/" sym) in
    let sym :=
      if negb (Js.includes "/" sym) && (6 <=? String.length sym)%nat
      then Js.sliceTo 3 sym ++ "/" ++ Js.sliceFrom 3 sym
      else sym in
    Some (Js.toUpperCase sym).

End LongOnly.

(** ** Results of calls that may throw or reject *)

Inductive Result (A : Type) : Type :=
| Ok (a : A)
| Throw (err : string).
Arguments Ok {A} a.
Arguments Throw {A} err.

(** ** Configuration (environment variables, part_000 lines 14-30) *)

Record Config := {
  EXCHANGE_TYPE : string;
  API_KEY : string;
  API_SECRET : string;
  SAFETY_BUFFER : float;
  MIN_ORDER_AMOUNT : float;
  DEFAULT_SYMBOL : string;
  USE_LEVERAGE_FOR_SWAPS : bool;
  LEVERAGE : float;
  WEBHOOK_SECRET : string;
  WEBHOOK_HEADER : string
}.

(** ** The exchange gateway (ccxt), as the values its calls answer with *)

Module Market.
(** A market record of [exchange.markets]; [limits_amount_min] is
    [market.limits.amount.min], [None] when any link of that chain is
    missing. *)
Record t := {
  base : string;
  quote : string;
  type : string;
  limits_amount_min : option float
}.
End Market.

Module Balance.
(** [bal[asset]]: its [free] and [total] amounts. *)
Record entry := { free : option float; total : option float }.
End Balance.

Module Ticker.
Record t := { last : option float; close : option float; bid : option float }.
End Ticker.

(** The gateway's order record, opaque to the relay. *)
Definition Order := string.

(** [markets] lists [exchange.markets] in [Object.keys] order ([None]
    while unset); [amountToPrecision] is [None] when the client has no
    such method; the other calls answer [Throw] when they throw or
    reject. *)
Record Exchange := {
  markets : option (list (string * Market.t));
  amountToPrecision : option (string -> float -> Result string);
  fetchBalance : Result (gmap string Balance.entry);
  fetchTicker : string -> Result Ticker.t;
  createMarketOrder : string -> string -> float -> Result Order
}.

(** [Object.keys(exchange.markets || {})] *)
Definition marketKeys (ex : Exchange) : list string :=
  map fst (default [] (markets ex)).

(** The property names every object inherits from [Object.prototype]. *)
Definition objectPrototypeKeys : list string :=
  [ "constructor"; "hasOwnProperty"; "isPrototypeOf"; "propertyIsEnumerable";
    "toLocaleString"; "toString"; "valueOf"; "__proto__";
    "__defineGetter__"; "__defineSetter__";
    "__lookupGetter__"; "__lookupSetter__" ].

(** [symbol in (exchange.markets || {})], for a symbol that is none of
    [objectPrototypeKeys]: whether it is one of the market keys. *)
Definition inMarkets (ex : Exchange) (symbol : string) : bool :=
  existsb (String.eqb symbol) (marketKeys ex).

(** [exchange.markets && exchange.markets[symbol] ? exchange.markets[symbol] : null],
    for a symbol that is none of [objectPrototypeKeys]: the market stored
    under that key. *)
Definition marketAt (ex : Exchange) (symbol : string) : option Market.t :=
  match find (fun kv => String.eqb (fst kv) symbol) (default [] (markets ex)) with
  | Some kv => Some (snd kv)
  | None => None
  end.

(** [tries.includes(k)] *)
Definition includesStr (l : list string) (k : string) : bool :=
  existsb (String.eqb k) l.

(** ** Position sizer: [computeAllInAmounts] (part_000 lines 126-216) *)

Record Amounts := {
  symbol : string;
  base : option string;
  quote : option string;
  price : float;
  buyAmount : float;
  sellAmount : float;
  freeQuote : float;
  freeBase : float;
  rawBuyAmount : float;
  rawSellAmount : float
}.

(** Line 138, the predicate of [find]: the key, or the key without its
    slash, is one of the four spellings tried for the symbol. *)
Definition reconciles (symbol k : string) : bool :=
  let tries := [ symbol;
                 Js.replace "/" "" symbol;
                 Js.replace "/" "-" symbol;
                 Js.replace "-" "" (Js.replace "/" "" symbol) ] in
  includesStr tries k || includesStr tries (Js.replace "/" "" k).

(** Lines 131-140: map the symbol to an actual market key. *)
Definition mapToMarketKey (ex : Exchange) (symbol : string) : string :=
  match markets ex with
  | Some _ =>
      if negb (inMarkets ex symbol) then
        let found := find (reconciles symbol) (marketKeys ex) in
        if Js.truthyStr found then default symbol found else symbol
      else symbol
  | None => symbol
  end.

(** Lines 144-152: base and quote from the market, else from the split. *)
Definition baseQuoteOf (market : option Market.t) (symbol : string)
  : option string * option string :=
  match market with
  | Some m => (Some (Market.base m), Some (Market.quote m))
  | None =>
      let parts := Js.split "/" symbol in
      (nth_error parts 0, nth_error parts 1)
  end.

(** Lines 156-157: [(bal[a] && (bal[a].free || bal[a].total)) ? (...) : 0];
    an undefined asset name indexes the property ["undefined"]. *)
Definition freeOf (bal : gmap string Balance.entry) (asset : option string)
  : float :=
  match bal !! default "undefined" asset with
  | Some e =>
      let v := Js.orElse (Balance.free e) (Balance.total e) in
      if Js.truthyOptNum v then default 0%float v else 0%float
  | None => 0%float
  end.

(** Lines 160-164: the ticker ([null] when the fetch fails) and the price
    [last || close || bid], [null] when none is truthy. *)
Definition priceOf (ticker : Result Ticker.t) : option float :=
  match ticker with
  | Throw _ => None
  | Ok t =>
      let v := Js.orElse (Js.orElse (Ticker.last t) (Ticker.close t))
                         (Ticker.bid t) in
      if Js.truthyOptNum v then v else None
  end.

(** Lines 168-173. *)
Definition rawBuyOf (cfg : Config) (freeQuote price : float) : float :=
  if String.eqb (EXCHANGE_TYPE cfg) "swap" && USE_LEVERAGE_FOR_SWAPS cfg
  then (freeQuote * SAFETY_BUFFER cfg * LEVERAGE cfg / price)%float
  else (freeQuote * SAFETY_BUFFER cfg / price)%float.

Section Sizer.

(** The global [parseFloat] on strings. *)
Variable parseFloat : string -> float.

(** The two assignments of lines 182-183 (and 187-188) inside the [try]:
    the flag tells whether both completed. *)
Definition roundBoth (atp : string -> float -> Result string) (key : string)
    (buyAmount sellAmount : float) : float * float * bool :=
  match atp key buyAmount with
  | Throw _ => (buyAmount, sellAmount, false)
  | Ok b =>
      match atp key sellAmount with
      | Throw _ => (parseFloat b, sellAmount, false)
      | Ok s => (parseFloat b, parseFloat s, true)
      end
  end.

(** Lines 177-195: best-effort rounding; yields the buy amount, the sell
    amount and the (possibly remapped) symbol. *)
Definition roundToPrecision (ex : Exchange) (symbol : string)
    (rawBuyAmount rawSellAmount : float) : float * float * string :=
  match amountToPrecision ex with
  | None => (rawBuyAmount, rawSellAmount, symbol)
  | Some atp =>
      if inMarkets ex symbol then
        let '(b, s, _) := roundBoth atp symbol rawBuyAmount rawSellAmount in
        (b, s, symbol)
      else
        let found :=
          find (fun k => String.eqb (Js.replace "/" "" k)
                                    (Js.replace "/" "" symbol))
               (marketKeys ex) in
        if Js.truthyStr found then
          let f := default symbol found in
          let '(b, s, completed) :=
            roundBoth atp f rawBuyAmount rawSellAmount in
          (b, s, if completed then f else symbol)
        else (rawBuyAmount, rawSellAmount, symbol)
  end.

(** Lines 200-201: one amount against the minimum. *)
Definition belowMinToZero (minAmt amount : float) : float :=
  if negb (Js.isNaN amount) && (0 <? amount)%float && (amount <? minAmt)%float
  then 0%float else amount.

(** Lines 198-202. *)
Definition enforceMinimum (market : option Market.t)
    (buyAmount sellAmount : float) : float * float :=
  match market with
  | Some m =>
      match Market.limits_amount_min m with
      | Some minAmt =>
          if Js.truthyNum minAmt
          then (belowMinToZero minAmt buyAmount,
                belowMinToZero minAmt sellAmount)
          else (buyAmount, sellAmount)
      | None => (buyAmount, sellAmount)
      end
  | None => (buyAmount, sellAmount)
  end.

Definition computeAllInAmounts (cfg : Config) (ex : Exchange)
    (marketSymbol : string) : Result Amounts :=
  let symbol := mapToMarketKey ex marketSymbol in
  let market := marketAt ex symbol in
  let '(base, quote) := baseQuoteOf market symbol in
  match fetchBalance ex with
  | Throw e => Throw e
  | Ok bal =>
      let freeQuote := freeOf bal quote in
      let freeBase := freeOf bal base in
      match priceOf (fetchTicker ex symbol) with
      | None => Throw ("Error: Cannot fetch price for symbol " ++ symbol)
      | Some price =>
          let rawBuyAmount := rawBuyOf cfg freeQuote price in
          let rawSellAmount := (freeBase * SAFETY_BUFFER cfg)%float in
          let '(buyAmount, sellAmount, symbol') :=
            roundToPrecision ex symbol rawBuyAmount rawSellAmount in
          let '(buyAmount, sellAmount) :=
            enforceMinimum market buyAmount sellAmount in
          Ok {| symbol := symbol'; base := base; quote := quote;
                price := price;
                buyAmount := buyAmount; sellAmount := sellAmount;
                freeQuote := freeQuote; freeBase := freeBase;
                rawBuyAmount := rawBuyAmount;
                rawSellAmount := rawSellAmount |}
      end
  end.

End Sizer.

(** ** Duplicate guard (part_000 lines 97-109) *)

Definition DUP_TTL_MS : Z := 30 * 1000.

(** The purge loop: drop every entry with [now - t > DUP_TTL_MS]. *)
Definition purgeOld (now : Z) (recentPayloads : gmap string Z) : gmap string Z :=
  filter (fun kt => ¬ (now - kt.2 > DUP_TTL_MS)%Z) recentPayloads.

(** [isDuplicate(key)] at time [now]: the answer and the map afterwards. *)
Definition isDuplicate (key : string) (now : Z) (recentPayloads : gmap string Z)
  : bool * gmap string Z :=
  let m := purgeOld now recentPayloads in
  match m !! key with
  | Some _ => (true, m)
  | None => (false, <[key := now]> m)
  end.

(** ** The webhook handler (part_000 lines 272-393) *)

Module Payload.
(** The two fields the handler reads; each is a string or undefined. *)
Record t := { action : option string; symbol : option string }.
End Payload.

(** [req.body]: a string (text parser) or an already parsed object. *)
Inductive Body :=
| BodyText (s : string)
| BodyObject (p : Payload.t).

Record Request := {
  body : Body;
  isJson : bool;                    (* req.is("application/json") *)
  headers : gmap string string
}.

Inductive Json :=
| ErrorJson (error : string)                        (* { error } *)
| DuplicateJson                                     (* { ok: true, duplicate: true } *)
| MarketTypeMismatchJson (marketType : string)      (* { error: "market_type_mismatch", marketType } *)
| TooSmallJson (error : string) (qty : float)       (* { error, qty } *)
| OrderFailedJson (detail : string)                 (* { error: "order_failed", detail } *)
| OrderJson (action : string) (order : Order).      (* { status: "ok", action, order } *)

Record Response := { status : Z; json : Json }.

(** What one request leaves behind: the response, the duplicate map and
    the [createMarketOrder] calls made (symbol, side, quantity). *)
Record Outcome := {
  response : Response;
  recentPayloads' : gmap string Z;
  orders : list (string * string * float)
}.

(** Control flow inside the handler's [try]: go on, [return res...], or
    throw into the outer [catch]. *)
Inductive Flow (A : Type) : Type :=
| Next (a : A)
| Reply (r : Response)
| Raise (err : string).
Arguments Next {A} a.
Arguments Reply {A} r.
Arguments Raise {A} err.

Definition bindFlow {A B} (m : Flow A) (k : A -> Flow B) : Flow B :=
  match m with
  | Next a => k a
  | Reply r => Reply r
  | Raise e => Raise e
  end.

Notation "'let*' x ':=' m 'in' k" := (bindFlow m (fun x => k))
  (at level 10, x pattern, m at level 100, k at level 200, only parsing).

Definition awaitFlow {A} (r : Result A) : Flow A :=
  match r with
  | Ok a => Next a
  | Throw e => Raise e
  end.

Definition guard (stop : bool) (r : Response) : Flow unit :=
  if stop then Reply r else Next tt.

(** [crypto.timingSafeEqual(Buffer.from(a), Buffer.from(b))]: a RangeError
    when the two buffers differ in byte length; otherwise whether the
    bytes, that is the strings, are the same. *)
Definition timingSafeEqual (a b : string) : Result bool :=
  if (Js.byteLength a =? Js.byteLength b)%nat then Ok (String.eqb a b)
  else Throw "RangeError: Input buffers must have the same byte length".

Section Handler.

Variable parseFloat : string -> float.
(** [JSON.stringify] on a body object, and [JSON.parse]: [Throw] on a
    syntax error, [Ok None] when the text parses to [null]. *)
Variable JSON_stringify : Payload.t -> string.
Variable JSON_parse : string -> Result (option Payload.t).
(** [crypto.createHash("sha256").update(s).digest("hex")] *)
Variable sha256hex : string -> string.
(** [crypto.createHmac("sha256", secret).update(s).digest("hex")] *)
Variable hmacSha256hex : string -> string -> string.

Definition computeHmac (secret payloadString : string) : string :=
  hmacSha256hex secret payloadString.

(** Line 275. *)
Definition rawTextOf (req : Request) : string :=
  match body req with
  | BodyText s => s
  | BodyObject p => JSON_stringify p
  end.

(** Line 278: [(req.headers[H] || req.headers[H.toLowerCase()] || "").toString()] *)
Definition signatureOf (cfg : Config) (req : Request) : string :=
  let h := headers req in
  let a := h !! WEBHOOK_HEADER cfg in
  let b := h !! Js.toLowerCase (WEBHOOK_HEADER cfg) in
  default "" (if Js.truthyStr a then a else if Js.truthyStr b then b else Some "").

(** Lines 277-288. *)
Definition verifySignature (cfg : Config) (req : Request) (rawText : string)
  : Flow unit :=
  if negb (Js.isEmpty (WEBHOOK_SECRET cfg)) then
    let sig := signatureOf cfg req in
    let computed := computeHmac (WEBHOOK_SECRET cfg) rawText in
    let* _ := guard (Js.isEmpty sig)
           {| status := 401; json := ErrorJson "missing_signature" |} in
    let* same := awaitFlow (timingSafeEqual sig computed) in
    guard (negb same) {| status := 401; json := ErrorJson "invalid_signature" |}
  else Next tt.

(** Lines 297-313. *)
Definition parsePayload (cfg : Config) (req : Request) (rawText : string)
  : Flow (option Payload.t) :=
  match isJson req, body req with
  | true, BodyObject p => Next (Some p)
  | _, _ =>
      let text := Js.trim rawText in
      match JSON_parse text with
      | Ok payload => Next payload
      | Throw _ =>
          let parts := Js.tokens text in
          let* _ := guard (length parts =? 0)%nat
                 {| status := 400; json := ErrorJson "Empty payload" |} in
          let action := Js.toLowerCase (default "" (nth_error parts 0)) in
          let* _ := guard (negb (String.eqb action "buy") && negb (String.eqb action "sell"))
                 {| status := 400; json := ErrorJson "Unknown action" |} in
          let symbol :=
            if Js.truthyStr (nth_error parts 1)
            then normalizeSymbol (nth_error parts 1)
            else Some (DEFAULT_SYMBOL cfg) in
          Next (Some {| Payload.action := Some action; Payload.symbol := symbol |})
      end
  end.

(** Lines 315-357 and 370-375: everything up to the order call; yields the
    symbol, the side and the quantity to send.  [parseFloat] of an amount
    that is already a number gives that number back (up to the sign of
    zero), so [qty] is the amount itself; [setLeverageIfNeeded] catches
    its own errors and yields nothing the handler uses. *)
Definition decideOrder (cfg : Config) (ex : Exchange) (req : Request)
    (rawText : string) : Flow (string * string * float) :=
  let* parsed := parsePayload cfg req rawText in
  let* payload := match parsed with
             | Some p => Next p
             | None => Raise "TypeError: Cannot read properties of null (reading 'action')"
             end in
  let action :=
    Js.toLowerCase (if Js.truthyStr (Payload.action payload)
                    then default "" (Payload.action payload) else "") in
  let symbol' :=
    if Js.truthyStr (Payload.symbol payload)
    then normalizeSymbol (Payload.symbol payload)
    else Some (DEFAULT_SYMBOL cfg) in
  let* _ := guard (Js.isEmpty action
              || (negb (String.eqb action "buy") && negb (String.eqb action "sell")))
         {| status := 400; json := ErrorJson "Action must be buy or sell" |} in
  let* _ := guard (negb (Js.truthyStr symbol'))
         {| status := 400; json := ErrorJson "Missing symbol" |} in
  let* amounts := awaitFlow (computeAllInAmounts parseFloat cfg ex (default "" symbol')) in
  let* _ := guard (Js.isEmpty (API_KEY cfg) || Js.isEmpty (API_SECRET cfg))
         {| status := 500; json := ErrorJson "API keys not set in environment" |} in
  let* _ := match marketAt ex (symbol amounts) with
       | Some market =>
           guard (String.eqb (EXCHANGE_TYPE cfg) "swap"
                  && negb (String.eqb (Market.type market) "swap"))
             {| status := 400; json := MarketTypeMismatchJson (Market.type market) |}
       | None => Next tt
       end in
  if String.eqb action "buy" then
    let qty := buyAmount amounts in
    let* _ := guard (Js.isNaN qty || (qty <=? MIN_ORDER_AMOUNT cfg)%float)
           {| status := 400; json := TooSmallJson "Computed buy size too small" qty |} in
    Next (symbol amounts, "buy", qty)
  else
    let qty := sellAmount amounts in
    let* _ := guard (Js.isNaN qty || (qty <=? MIN_ORDER_AMOUNT cfg)%float)
           {| status := 400; json := TooSmallJson "Computed sell size too small" qty |} in
    Next (symbol amounts, "sell", qty).

(** Lines 297-392 after the duplicate guard: the response and the order
    calls made. *)
Definition processSignal (cfg : Config) (ex : Exchange) (req : Request)
    (rawText : string) : Response * list (string * string * float) :=
  match decideOrder cfg ex req rawText with
  | Reply r => (r, [])
  | Raise e => ({| status := 500; json := ErrorJson e |}, [])
  | Next (sym, side, qty) =>
      match createMarketOrder ex sym side qty with
      | Ok order =>
          ({| status := 200; json := OrderJson side order |}, [(sym, side, qty)])
      | Throw e =>
          ({| status := 500; json := OrderFailedJson e |}, [(sym, side, qty)])
      end
  end.

(** [app.post("/webhook", ...)] run at time [now] on the duplicate map
    [recentPayloads], with the exchange answering as [ex]. *)
Definition webhook (cfg : Config) (ex : Exchange) (req : Request) (now : Z)
    (recentPayloads : gmap string Z) : Outcome :=
  let rawText := rawTextOf req in
  match verifySignature cfg req rawText with
  | Reply r =>
      {| response := r; recentPayloads' := recentPayloads; orders := [] |}
  | Raise e =>
      {| response := {| status := 500; json := ErrorJson e |};
         recentPayloads' := recentPayloads; orders := [] |}
  | Next _ =>
      let dupKey := sha256hex rawText in
      let '(dup, m) := isDuplicate dupKey now recentPayloads in
      if dup then
        {| response := {| status := 200; json := DuplicateJson |};
           recentPayloads' := m; orders := [] |}
      else
        let '(r, calls) := processSignal cfg ex req rawText in
        {| response := r; recentPayloads' := m; orders := calls |}
  end.

End Handler.

(** ** Auxiliary definitions for the statements *)

(** The three characters the normaliser treats as separators. *)
Definition isSep (d : ascii) : Prop :=
  d = "/"%char \/ d = "-"%char \/ d = "_"%char.

(** Line 117: the slash put after the first three characters. *)
Definition insertSlash (s : string) : string :=
  Js.sliceTo 3 s ++ "/" ++ Js.sliceFrom 3 s.

(** The body of [normalizeSymbol] after [trim] (lines 115-119). *)
Definition canonical (t : string) : string :=
  let s := Js.replace "_" "/" (Js.replace "-" "/" t) in
  Js.toUpperCase
    (if negb (Js.includes "/" s) && (6 <=? String.length s)%nat
     then insertSlash s
     else s).

(** No leading, respectively trailing, whitespace. *)
Definition headOk (s : string) : bool :=
  match s with
  | EmptyString => true
  | String c _ => negb (Js.isWhiteSpace c)
  end.

Fixpoint lastOk (s : string) : bool :=
  match s with
  | EmptyString => true
  | String c r => if Js.isEmpty r then negb (Js.isWhiteSpace c) else lastOk r
  end.

(** The market key whose precision the rounding step asks for (lines
    181 and 185-186), if any. *)
Definition precisionKey (ex : Exchange) (symbol : string) : option string :=
  if inMarkets ex symbol then Some symbol
  else
    let found :=
      find (fun k => String.eqb (Js.replace "/" "" k) (Js.replace "/" "" symbol))
           (marketKeys ex) in
    if Js.truthyStr found then found else None.

(** ** Test doubles for the closed instances *)

Module Scenario.

Definition config (safetyBuffer : float) (secret : string) : Config := {|
  EXCHANGE_TYPE := "swap";
  API_KEY := "key";
  API_SECRET := "secret";
  SAFETY_BUFFER := safetyBuffer;
  MIN_ORDER_AMOUNT := 0.00000001;
  DEFAULT_SYMBOL := "BTC/USDT:USDT";
  USE_LEVERAGE_FOR_SWAPS := false;
  LEVERAGE := 1;
  WEBHOOK_SECRET := secret;
  WEBHOOK_HEADER := "x-webhook-signature"
|}.

(** A [parseFloat] that knows the three strings the gateway below prints. *)
Definition toyParseFloat (s : string) : float :=
  if String.eqb s "0.0005" then 0.0005
  else if String.eqb s "0.02" then 0.02
  else if String.eqb s "0.033" then 0.033
  else nan.

(** An [amountToPrecision] with three decimals of precision on the
    amounts used below; like ccxt's it throws on an amount that rounds
    to nothing. *)
Definition toyAmountToPrecision (_ : string) (x : float) : Result string :=
  if (x =? 0)%float
  then Throw "InvalidOrder: amount must be greater than minimum amount precision"
  else if (x <? 0.001)%float then Ok "0.0005"
  else if (x <? 0.025)%float then Ok "0.02"
  else Ok "0.033".

Definition btcMarket : Market.t := {|
  Market.base := "BTC";
  Market.quote := "USDT";
  Market.type := "swap";
  Market.limits_amount_min := Some 0.001%float
|}.

(** One BTC/USDT market, [usdt] free USDT and no BTC, last price [last]. *)
Definition exchange (usdt : float) (last : Result float) : Exchange := {|
  markets := Some [("BTC/USDT", btcMarket)];
  amountToPrecision := Some toyAmountToPrecision;
  fetchBalance :=
    Ok {[ "USDT" := {| Balance.free := Some usdt; Balance.total := Some usdt |} ]};
  fetchTicker := fun _ =>
    match last with
    | Ok p => Ok {| Ticker.last := Some p; Ticker.close := None; Ticker.bid := None |}
    | Throw e => Throw e
    end;
  createMarketOrder := fun _ _ _ => Throw "InsufficientFunds"
|}.

(** Stand-ins for [JSON.parse] (every body is taken as plain text),
    [JSON.stringify], SHA-256 and HMAC-SHA256 (64 hexadecimal digits). *)
Definition toyParse (_ : string) : Result (option Payload.t) :=
  Throw "SyntaxError: Unexpected token".

Definition toyStringify (_ : Payload.t) : string := "{}".

Definition toySha (s : string) : string := s.

Definition toyHmac (_ _ : string) : string :=
  "00000000000000000000000000000000ffffffffffffffffffffffffffffffff".

Definition textRequest (text : string) (hdrs : gmap string string) : Request :=
  {| body := BodyText text; isJson := false; headers := hdrs |}.

End Scenario.


(** ** Market loader (part_000 lines 79-94; server.js lines 47-61) *)

Module Loader.

(** [marketsReady], [exchange.markets], the number of calls of
    [exchange.loadMarkets] made so far and the number of 2 s timers
    awaited so far. *)
Record state := {
  marketsReady : bool;
  loaded : option (list (string * Market.t));
  calls : nat;
  waits : nat
}.

End Loader.

(** [loadMarkets(retry)]; [answers n] is what the call number [n] (from 0)
    of [exchange.loadMarkets(true)] answers. *)
Equations? loadMarkets (answers : nat -> Result (list (string * Market.t)))
    (retry : nat) (st : Loader.state) : Loader.state by wf (3 - retry) lt :=
  loadMarkets answers retry st with answers (Loader.calls st) => {
    | Ok mk =>
        {| Loader.marketsReady := true;
           Loader.loaded := Some mk;
           Loader.calls := S (Loader.calls st);
           Loader.waits := Loader.waits st |};
    | Throw _ with lt_dec retry 3 => {
        | left _ =>
            loadMarkets answers (S retry)
              {| Loader.marketsReady := Loader.marketsReady st;
                 Loader.loaded := Loader.loaded st;
                 Loader.calls := S (Loader.calls st);
                 Loader.waits := S (Loader.waits st) |};
        | right _ =>
            {| Loader.marketsReady := Loader.marketsReady st;
               Loader.loaded := Loader.loaded st;
               Loader.calls := S (Loader.calls st);
               Loader.waits := Loader.waits st |} } }.
Proof. lia. Qed.

(** ** Leverage (part_000 lines 218-232) *)

(** [setLeverageIfNeeded(symbol)]: the [exchange.setLeverage] calls it
    makes (leverage, symbol).  [setLeverage] is [None] when the client has
    no such method; a call that throws is caught, so nothing else comes
    out of the function. *)
Definition setLeverageIfNeeded (cfg : Config)
    (setLeverage : option (float -> string -> Result unit)) (symbol : string)
  : list (float * string) :=
  if negb (String.eqb (EXCHANGE_TYPE cfg) "swap")
     || negb (USE_LEVERAGE_FOR_SWAPS cfg)
     || negb (Js.truthyNum (LEVERAGE cfg))
     || (LEVERAGE cfg <=? 1)%float
  then []
  else
    match setLeverage with
    | Some _ => [(LEVERAGE cfg, symbol)]
    | None => []
    end.

(** ** The "LIVE" server's sizer (part_000 lines 497-575; server.js lines
    292-365) *)

Module Live.

Definition computeAllInAmounts (parseFloat : string -> float) (cfg : Config)
    (ex : Exchange) (marketSymbol : string) : Result Amounts :=
  let symbol := mapToMarketKey ex marketSymbol in
  let market := marketAt ex symbol in
  let '(base, quote) := baseQuoteOf market symbol in
  match fetchBalance ex with
  | Throw e => Throw e
  | Ok bal =>
      let freeQuote := freeOf bal quote in
      let freeBase := freeOf bal base in
      match priceOf (fetchTicker ex symbol) with
      | None => Throw ("Error: Cannot fetch price for symbol " ++ symbol)
      | Some price =>
          let rawBuyAmount := (freeQuote * SAFETY_BUFFER cfg / price)%float in
          let rawSellAmount := (freeBase * SAFETY_BUFFER cfg)%float in
          let '(buyAmount, sellAmount, symbol') :=
            roundToPrecision parseFloat ex symbol rawBuyAmount rawSellAmount in
          Ok {| symbol := symbol'; base := base; quote := quote;
                price := price;
                buyAmount := buyAmount; sellAmount := sellAmount;
                freeQuote := freeQuote; freeBase := freeBase;
                rawBuyAmount := rawBuyAmount;
                rawSellAmount := rawSellAmount |}
      end
  end.

End Live.

(** ** Successive calls of the duplicate guard *)

(** [isDuplicate] called for each (key, time) of a list in turn: the
    answers and the map at the end. *)
Fixpoint isDuplicateRun (calls : list (string * Z)) (recentPayloads : gmap string Z)
  : list bool * gmap string Z :=
  match calls with
  | [] => ([], recentPayloads)
  | (key, now) :: rest =>
      let '(dup, m) := isDuplicate key now recentPayloads in
      let '(dups, m') := isDuplicateRun rest m in
      (dup :: dups, m')
  end.

(** ** Kinds of response bodies *)

(** A JSON body that is neither an order record nor the duplicate note. *)
Definition isRefusal (j : Json) : bool :=
  match j with
  | ErrorJson _ | MarketTypeMismatchJson _ | TooSmallJson _ _ => true
  | DuplicateJson | OrderFailedJson _ | OrderJson _ _ => false
  end.



(** ** The long-only server (server.js lines 1-212) *)

Module LongOnlyServer.

(** Its environment (lines 11-17). *)
Record Config := {
  EXCHANGE_ID : string;
  DEFAULT_SYMBOL : string;
  EXCHANGE_TYPE : string;
  MIN_AMOUNT : float
}.

(** A position of [fetchPositions], with the six fields line 105 looks
    at, each a number or undefined. *)
Record Position := {
  contracts : option float;
  size : option float;
  amount : option float;
  positionAmt : option float;
  position_size : option float;
  position : option float
}.

(** The [params] object of an order; a field is [None] when unset. *)
Record Params := {
  reduceOnly : option bool;
  orderType : option string;
  type : option string
}.

Definition noParams : Params :=
  {| reduceOnly := None; orderType := None; type := None |}.

(** The gateway as this server uses it.  [fetchBalance] answers the
    [free] table of the balance ([None] when the balance has none);
    [fetchPositions] is [None] when the client has no such method and
    answers [Ok None] for anything but an array; [amountToPrecision] and
    [createMarketOrder] are [None] when the client has no such method. *)
Record Exchange := {
  markets : option (list (string * Market.t));
  amountToPrecision : option (string -> float -> Result string);
  fetchBalance : Result (option (gmap string float));
  fetchTicker : string -> Result Ticker.t;
  fetchPositions : option (string -> Result (option (list Position)));
  createMarketOrder :
    option (string -> string -> float -> Params -> Result Order);
  createOrder :
    string -> string -> string -> float -> Params -> Result Order
}.

(** An order request sent to the gateway. *)
Inductive OrderCall :=
| CreateMarketOrder (symbol side : string) (amount : float) (params : Params)
| CreateOrder (symbol type side : string) (amount : float) (params : Params).

(** Where a sell quantity comes from (the [from] field of line 111/127),
    with the quantity and the raw position size or free base balance. *)
Inductive SellInfo :=
| FromPosition (qty raw : float)
| FromBalance (qty freeBase : float).

Definition callSide (c : OrderCall) : string :=
  match c with
  | CreateMarketOrder _ side _ _ => side
  | CreateOrder _ _ side _ _ => side
  end.

Definition callSymbol (c : OrderCall) : string :=
  match c with
  | CreateMarketOrder symbol _ _ _ => symbol
  | CreateOrder symbol _ _ _ _ => symbol
  end.

Definition callAmount (c : OrderCall) : float :=
  match c with
  | CreateMarketOrder _ _ amount _ => amount
  | CreateOrder _ _ _ amount _ => amount
  end.

Definition callParams (c : OrderCall) : Params :=
  match c with
  | CreateMarketOrder _ _ _ params => params
  | CreateOrder _ _ _ _ params => params
  end.

(** The order type a request names: [createMarketOrder] is a market
    order by its name, [createOrder] by its second argument. *)
Definition callType (c : OrderCall) : string :=
  match c with
  | CreateMarketOrder _ _ _ _ => "market"
  | CreateOrder _ type _ _ _ => type
  end.

(** What [exchange.markets[symbol]] reads. *)
Inductive MarketSlot :=
| OwnMarket (m : Market.t)
| InheritedMember
| NoMarket.

Definition sellQty (i : SellInfo) : float :=
  match i with
  | FromPosition qty _ => qty
  | FromBalance qty _ => qty
  end.

Section Server.

Variable parseFloat : string -> float.
Variable JSON_parse : string -> Result (option Payload.t).

(** [exchange.markets && exchange.markets[symbol] ? exchange.markets[symbol] : null]
    (line 74): the market listed under the symbol; for a symbol that is
    not listed but names a member of [Object.prototype], that member,
    which is truthy and has neither [base] nor [quote]. *)
Definition marketOf (ex : Exchange) (symbol : string) : MarketSlot :=
  match markets ex with
  | None => NoMarket
  | Some mk =>
      match find (fun kv => String.eqb (fst kv) symbol) mk with
      | Some kv => OwnMarket (snd kv)
      | None =>
          if existsb (String.eqb symbol) objectPrototypeKeys
          then InheritedMember else NoMarket
      end
  end.

(** [market ? market.quote : symbol.split("/")[1]] (line 87) and
    [market ? market.base : symbol.split("/")[0]] (line 121); [None] is
    undefined. *)
Definition assetOf (field : Market.t -> string) (part : nat)
    (market : MarketSlot) (symbol : string) : option string :=
  match market with
  | OwnMarket m => Some (field m)
  | InheritedMember => None
  | NoMarket => nth_error (Js.split "/" symbol) part
  end.

(** [(balance && balance.free && balance.free[a]) ? balance.free[a] : 0]
    (lines 88 and 122).  An undefined asset name indexes the property
    ["undefined"]; an asset name the table does not hold but
    [Object.prototype] does reads that member, which is truthy and is NaN
    wherever the handler uses the result as a number. *)
Definition freeOf (balance : option (gmap string float)) (asset : option string)
  : float :=
  match balance with
  | Some free =>
      let a := default "undefined" asset in
      match free !! a with
      | Some v => if Js.truthyNum v then v else 0%float
      | None =>
          if existsb (String.eqb a) objectPrototypeKeys then nan else 0%float
      end
  | None => 0%float
  end.

(** Lines 72-81: the market, the balance and the price; a rejected
    balance fetch is thrown on, a rejected ticker fetch gives no price. *)
Definition getPriceAndBalances (ex : Exchange) (symbol : string)
  : Result (MarketSlot * option (gmap string float) * option float) :=
  let market := marketOf ex symbol in
  match fetchBalance ex with
  | Throw e => Throw e
  | Ok balance => Ok (market, balance, priceOf (fetchTicker ex symbol))
  end.

(** [try { qty = parseFloat(exchange.amountToPrecision(symbol, qty)); } catch(e){}]
    (lines 90, 110, 126): a missing method throws inside the [try] too. *)
Definition roundOrKeep (ex : Exchange) (symbol : string) (qty : float) : float :=
  match amountToPrecision ex with
  | Some atp =>
      match atp symbol qty with
      | Ok s => parseFloat s
      | Throw _ => qty
      end
  | None => qty
  end.


(** Lines 84-92; yields [(qty, price, freeQuote)]. *)
Definition computeBuyAmount (ex : Exchange) (symbol : string)
  : Result (float * float * float) :=
  match getPriceAndBalances ex symbol with
  | Throw e => Throw e
  | Ok (market, balance, price) =>
      match price with
      | None => Throw ("Error: Cannot fetch price for " ++ symbol)
      | Some price =>
          let quote := assetOf Market.quote 1 market symbol in
          let freeQuote := freeOf balance quote in
          let qty := (freeQuote / price)%float in
          Ok (roundOrKeep ex symbol qty, price, freeQuote)
      end
  end.

(** Line 105: [[p.contracts, p.size, p.amount, p.positionAmt,
    p.position_size, p['position']].filter(Boolean)]. *)
Definition sizeCandidates (p : Position) : list float :=
  omap (fun v => if Js.truthyOptNum v then v else None)
    [contracts p; size p; amount p; positionAmt p; position_size p; position p].

(** The loop of lines 103-114: the first position whose first size
    candidate is a positive number. *)
Fixpoint firstLong (pos : list Position) : option float :=
  match pos with
  | [] => None
  | p :: rest =>
      match sizeCandidates p with
      | raw :: _ =>
          if negb (Js.isNaN raw) && (0 <? raw)%float then Some raw
          else firstLong rest
      | [] => firstLong rest
      end
  end.

(** Lines 97-116, the part inside the [try]: the raw size of the long
    position, if the positions can be fetched and show one. *)
Definition positionSize (ex : Exchange) (symbol : string) : option float :=
  match fetchPositions ex with
  | Some fetch =>
      match fetch symbol with
      | Ok (Some pos) => firstLong pos
      | Ok None => None
      | Throw _ => None
      end
  | None => None
  end.

(** Lines 95-128. *)
Definition computeSellAmount (ex : Exchange) (symbol : string)
  : Result SellInfo :=
  match positionSize ex symbol with
  | Some raw => Ok (FromPosition (roundOrKeep ex symbol raw) raw)
  | None =>
      match getPriceAndBalances ex symbol with
      | Throw e => Throw e
      | Ok (market, balance, _) =>
          let base := assetOf Market.base 0 market symbol in
          let freeBase := freeOf balance base in
          Ok (FromBalance (roundOrKeep ex symbol freeBase) freeBase)
      end
  end.

(** Lines 131-146: the order answered and the requests sent. *)
Definition placeMarketOrder (cfg : Config) (ex : Exchange)
    (symbol side : string) (amount : float) (extraParams : Params)
  : Result Order * list OrderCall :=
  let params :=
    if String.eqb (EXCHANGE_ID cfg) "bitget" && String.eqb (EXCHANGE_TYPE cfg) "swap"
    then {| reduceOnly := reduceOnly extraParams;
            orderType := Some "market"; type := Some "market" |}
    else extraParams in
  match createMarketOrder ex with
  | Some create =>
      match create symbol side amount params with
      | Ok order => (Ok order, [CreateMarketOrder symbol side amount params])
      | Throw _ =>
          (createOrder ex symbol "market" side amount params,
           [CreateMarketOrder symbol side amount params;
            CreateOrder symbol "market" side amount params])
      end
  | None =>
      (createOrder ex symbol "market" side amount params,
       [CreateOrder symbol "market" side amount params])
  end.

(** [(req.body || "").toString()] (line 158). *)
Definition bodyToString (b : Body) : string :=
  match b with
  | BodyText s => s
  | BodyObject _ => "[object Object]"
  end.

(** Lines 154-165. *)
Definition parsePayload (cfg : Config) (req : Request) : Flow (option Payload.t) :=
  match isJson req, body req with
  | true, BodyObject p => Next (Some p)
  | _, _ =>
      let text := Js.trim (bodyToString (body req)) in
      match JSON_parse text with
      | Ok payload => Next payload
      | Throw _ =>
          let parts := Js.tokens text in
          let* _ := guard (length parts =? 0)%nat
                      {| status := 400; json := ErrorJson "Empty payload" |} in
          Next (Some {| Payload.action :=
                          Some (Js.toLowerCase (default "" (nth_error parts 0)));
                        Payload.symbol :=
                          if Js.truthyStr (nth_error parts 1)
                          then nth_error parts 1
                          else Some (DEFAULT_SYMBOL cfg) |})
      end
  end.

(** [!qty || isNaN(qty) || qty <= MIN_AMOUNT] (lines 181 and 192). *)
Definition tooSmall (cfg : Config) (qty : float) : bool :=
  negb (Js.truthyNum qty) || Js.isNaN qty || (qty <=? MIN_AMOUNT cfg)%float.

(** Lines 167-200, up to the order: what to order (symbol, side,
    quantity, extra parameters), or the response that ends the request.
    [parseFloat] of the sell quantity (line 190), which is a number
    already, gives that number back (up to the sign of zero). *)
Definition decideOrder (cfg : Config) (ex : Exchange) (req : Request)
  : Flow (string * string * float * Params) :=
  let* parsed := parsePayload cfg req in
  let* payload :=
    match parsed with
    | Some p => Next p
    | None => Raise "TypeError: Cannot read properties of null (reading 'action')"
    end in
  let action :=
    Js.toLowerCase (if Js.truthyStr (Payload.action payload)
                    then default "" (Payload.action payload) else "") in
  let symbol :=
    LongOnly.normalizeSymbol (DEFAULT_SYMBOL cfg)
      (if Js.truthyStr (Payload.symbol payload)
       then Payload.symbol payload else Some (DEFAULT_SYMBOL cfg)) in
  let* _ := guard (Js.isEmpty action
                   || (negb (String.eqb action "buy")
                       && negb (String.eqb action "sell")))
              {| status := 400; json := ErrorJson "Action must be buy or sell" |} in
  let* _ := guard (negb (Js.truthyStr symbol))
              {| status := 400; json := ErrorJson "Missing symbol" |} in
  let symbol := default "" symbol in
  if String.eqb action "buy" then
    let* bought := awaitFlow (computeBuyAmount ex symbol) in
    let qty := fst (fst bought) in
    let* _ := guard (tooSmall cfg qty)
                {| status := 400;
                   json := TooSmallJson "Buy amount too small or zero" qty |} in
    Next (symbol, "buy", qty, noParams)
  else
    let* sellInfo := awaitFlow (computeSellAmount ex symbol) in
    let qty := sellQty sellInfo in
    let* _ := guard (tooSmall cfg qty)
                {| status := 400;
                   json := TooSmallJson "Sell amount too small or zero" qty |} in
    let extraParams :=
      if String.eqb (EXCHANGE_TYPE cfg) "swap"
      then {| reduceOnly := Some true; orderType := None; type := None |}
      else noParams in
    Next (symbol, "sell", qty, extraParams).

(** Lines 151-208: the response and the order requests sent.  The body
    of a success, [{ ok: true, action, order }], is written [OrderJson]. *)
Definition webhook (cfg : Config) (ex : Exchange) (req : Request)
  : Response * list OrderCall :=
  match decideOrder cfg ex req with
  | Reply r => (r, [])
  | Raise e => ({| status := 500; json := ErrorJson e |}, [])
  | Next (symbol, side, qty, extraParams) =>
      match placeMarketOrder cfg ex symbol side qty extraParams with
      | (Ok order, calls) =>
          ({| status := 200; json := OrderJson side order |}, calls)
      | (Throw e, calls) =>
          ({| status := 500; json := ErrorJson e |}, calls)
      end
  end.

End Server.

End LongOnlyServer.

(** Test doubles for the long-only server: a swap account on bitget with
    one long position of 0.5 contracts listed after a short one. *)
Module LongOnlyScenario.

Import LongOnlyServer.

Definition config : Config := {|
  EXCHANGE_ID := "bitget";
  DEFAULT_SYMBOL := "BTC/USDT:USDT";
  EXCHANGE_TYPE := "swap";
  MIN_AMOUNT := 0.00000001
|}.

Definition sized (c s : option float) : Position := {|
  contracts := c; size := s; amount := None;
  positionAmt := None; position_size := None; position := None
|}.

(** [createMarketOrder] is rejected, [createOrder] goes through;
    [amountToPrecision] always throws. *)
Definition exchange (free : Result (option (gmap string float)))
    (positions : list Position) : Exchange := {|
  markets := None;
  amountToPrecision := Some (fun _ _ => Throw "Error: markets not loaded");
  fetchBalance := free;
  fetchTicker := fun _ =>
    Ok {| Ticker.last := Some 50000%float; Ticker.close := None;
          Ticker.bid := None |};
  fetchPositions := Some (fun _ => Ok (Some positions));
  createMarketOrder := Some (fun _ _ _ _ => Throw "NotSupported");
  createOrder := fun _ _ _ _ _ => Ok "order-1"
|}.

Definition jsonRequest (action symbol : option string) : Request :=
  {| body := BodyObject {| Payload.action := action; Payload.symbol := symbol |};
     isJson := true; headers := ∅ |}.

End LongOnlyScenario.

(** ** Facts about the string primitives *)

Section StringFacts.

Ltac all_chars c := destruct c as [[] [] [] [] [] [] [] []]; reflexivity.

Lemma upperChar_idem c : Js.upperChar (Js.upperChar c) = Js.upperChar c.
Proof. all_chars c. Qed.

Lemma upperChar_ws c : Js.isWhiteSpace (Js.upperChar c) = Js.isWhiteSpace c.
Proof. all_chars c. Qed.

Lemma upperChar_slash c : Ascii.eqb (Js.upperChar c) "/" = Ascii.eqb c "/".
Proof. all_chars c. Qed.

Lemma upperChar_dash c : Ascii.eqb (Js.upperChar c) "-" = Ascii.eqb c "-".
Proof. all_chars c. Qed.

Lemma upperChar_underscore c : Ascii.eqb (Js.upperChar c) "_" = Ascii.eqb c "_".
Proof. all_chars c. Qed.

Lemma upperChar_sep d c : isSep d -> Ascii.eqb (Js.upperChar c) d = Ascii.eqb c d.
Proof.
  intros [-> | [-> | ->]];
    [apply upperChar_slash | apply upperChar_dash | apply upperChar_underscore].
Qed.

Lemma isSep_not_ws d : isSep d -> Js.isWhiteSpace d = false.
Proof. intros [-> | [-> | ->]]; reflexivity. Qed.

Lemma isEmpty_false_iff s : Js.isEmpty s = false <-> s <> "".
Proof. destruct s; simpl; split; congruence. Qed.

Lemma isEmpty_mapChars f s : Js.isEmpty (Js.mapChars f s) = Js.isEmpty s.
Proof. destruct s; reflexivity. Qed.

Lemma length_mapChars f s : String.length (Js.mapChars f s) = String.length s.
Proof. induction s; simpl; congruence. Qed.

Lemma toUpperCase_idem s : Js.toUpperCase (Js.toUpperCase s) = Js.toUpperCase s.
Proof.
  unfold Js.toUpperCase. induction s; simpl; [reflexivity|].
  rewrite upperChar_idem. congruence.
Qed.

Lemma count_toUpperCase d s :
  isSep d -> Js.count d (Js.toUpperCase s) = Js.count d s.
Proof.
  intros Hd. unfold Js.toUpperCase. induction s; simpl; [reflexivity|].
  rewrite upperChar_sep by assumption. congruence.
Qed.

Lemma headOk_toUpperCase s : headOk (Js.toUpperCase s) = headOk s.
Proof. destruct s; simpl; [reflexivity|]. now rewrite upperChar_ws. Qed.

Lemma lastOk_toUpperCase s : lastOk (Js.toUpperCase s) = lastOk s.
Proof.
  unfold Js.toUpperCase. induction s; simpl; [reflexivity|].
  rewrite isEmpty_mapChars, upperChar_ws. now rewrite IHs.
Qed.

Lemma includes_count c s : Js.includes c s = negb (Js.count c s =? 0)%nat.
Proof.
  induction s; simpl; [reflexivity|].
  destruct (Ascii.eqb a c); simpl; [reflexivity | assumption].
Qed.

Lemma append_cons c a b : String c a ++ b = String c (a ++ b).
Proof. reflexivity. Qed.

Lemma append_nil b : "" ++ b = b.
Proof. reflexivity. Qed.

Lemma count_append c a b : Js.count c (a ++ b) = (Js.count c a + Js.count c b)%nat.
Proof.
  induction a; [reflexivity|].
  rewrite append_cons. cbn [Js.count]. rewrite IHa. lia.
Qed.

Lemma length_append a b : String.length (a ++ b) = (String.length a + String.length b)%nat.
Proof.
  induction a; [reflexivity|].
  rewrite append_cons. cbn [String.length]. now rewrite IHa.
Qed.

Lemma slice_append n s : Js.sliceTo n s ++ Js.sliceFrom n s = s.
Proof.
  revert s. induction n; intros [|c r]; try reflexivity.
  cbn [Js.sliceTo Js.sliceFrom]. now rewrite append_cons, IHn.
Qed.

(** *** [trim] *)

Lemma trimStart_fix s : headOk s = true -> Js.trimStart s = s.
Proof. destruct s; simpl; [reflexivity|]. now destruct (Js.isWhiteSpace a). Qed.

Lemma trimEnd_fix s : lastOk s = true -> Js.trimEnd s = s.
Proof.
  induction s; simpl; [reflexivity|].
  destruct (Js.isEmpty s) eqn:E.
  - destruct s; [|discriminate]. simpl. intros H.
    apply negb_true_iff in H. now rewrite H.
  - intros H. rewrite (IHs H), E, andb_false_r. reflexivity.
Qed.

Lemma headOk_trimStart s : headOk (Js.trimStart s) = true.
Proof.
  induction s; simpl; [reflexivity|].
  destruct (Js.isWhiteSpace a) eqn:E; [assumption|]. simpl. now rewrite E.
Qed.

Lemma headOk_trimEnd s : headOk s = true -> headOk (Js.trimEnd s) = true.
Proof.
  destruct s; simpl; [reflexivity|].
  intros H. apply negb_true_iff in H. rewrite H. simpl. now rewrite H.
Qed.

Lemma lastOk_trimEnd s : lastOk (Js.trimEnd s) = true.
Proof.
  induction s; simpl; [reflexivity|].
  destruct (Js.isWhiteSpace a) eqn:Ea; simpl.
  - destruct (Js.isEmpty (Js.trimEnd s)) eqn:E; simpl; [reflexivity|].
    now rewrite E.
  - destruct (Js.isEmpty (Js.trimEnd s)) eqn:E; [now rewrite Ea | assumption].
Qed.

Lemma headOk_trim s : headOk (Js.trim s) = true.
Proof. apply headOk_trimEnd, headOk_trimStart. Qed.

Lemma lastOk_trim s : lastOk (Js.trim s) = true.
Proof. apply lastOk_trimEnd. Qed.

Lemma trim_fix s : headOk s = true -> lastOk s = true -> Js.trim s = s.
Proof.
  intros Hh Hl. unfold Js.trim. rewrite (trimStart_fix s Hh). now apply trimEnd_fix.
Qed.

Lemma count_trimStart d s : Js.isWhiteSpace d = false ->
  Js.count d (Js.trimStart s) = Js.count d s.
Proof.
  intros Hd. induction s; simpl; [reflexivity|].
  destruct (Js.isWhiteSpace a) eqn:E; [|reflexivity].
  destruct (Ascii.eqb_spec a d) as [->|_]; [congruence|]. now rewrite IHs.
Qed.

Lemma count_trimEnd d s : Js.isWhiteSpace d = false ->
  Js.count d (Js.trimEnd s) = Js.count d s.
Proof.
  intros Hd. induction s; simpl; [reflexivity|].
  destruct (Js.isWhiteSpace a) eqn:E; simpl.
  - destruct (Ascii.eqb_spec a d) as [->|_]; [congruence|].
    destruct (Js.isEmpty (Js.trimEnd s)) eqn:Ee; simpl.
    + destruct (Js.trimEnd s); [|discriminate]. simpl in IHs. now rewrite <- IHs.
    + destruct (Ascii.eqb_spec a d) as [->|_]; [congruence|]. now rewrite IHs.
  - now rewrite IHs.
Qed.

Lemma count_trim d s : isSep d -> Js.count d (Js.trim s) = Js.count d s.
Proof.
  intros Hd. unfold Js.trim.
  rewrite count_trimEnd, count_trimStart by now apply isSep_not_ws.
  reflexivity.
Qed.

End StringFacts.

(** *** [replace] of one character by a slash *)

Section ReplaceFacts.

Lemma replace_slash_cons c x t :
  Js.replace c "/" (String x t) =
  if Ascii.eqb x c then String "/" t else String x (Js.replace c "/" t).
Proof. reflexivity. Qed.

Lemma replace_absent c r s : Js.count c s = 0%nat -> Js.replace c r s = s.
Proof.
  induction s; simpl; [reflexivity|].
  destruct (Ascii.eqb a c); [discriminate|]. simpl. intros H. now rewrite IHs.
Qed.

Lemma isEmpty_replace c s : Js.isEmpty (Js.replace c "/" s) = Js.isEmpty s.
Proof. destruct s; [reflexivity|]. rewrite replace_slash_cons. now destruct (Ascii.eqb a c). Qed.

Lemma length_replace c s : String.length (Js.replace c "/" s) = String.length s.
Proof.
  induction s; [reflexivity|]. rewrite replace_slash_cons.
  destruct (Ascii.eqb a c); simpl; congruence.
Qed.

Lemma headOk_replace c s :
  Js.isWhiteSpace c = false -> headOk (Js.replace c "/" s) = headOk s.
Proof.
  intros Hc. destruct s; [reflexivity|]. rewrite replace_slash_cons.
  destruct (Ascii.eqb_spec a c) as [->|_]; simpl; [now rewrite Hc | reflexivity].
Qed.

Lemma lastOk_replace c s :
  Js.isWhiteSpace c = false -> lastOk (Js.replace c "/" s) = lastOk s.
Proof.
  intros Hc. induction s; [reflexivity|]. rewrite replace_slash_cons.
  destruct (Ascii.eqb_spec a c) as [->|_]; simpl.
  - now rewrite Hc.
  - now rewrite isEmpty_replace, IHs.
Qed.

Lemma eqb_ne (x y : ascii) : x <> y -> Ascii.eqb x y = false.
Proof. intros H. now apply Ascii.eqb_neq. Qed.

Lemma count_replace_same c s :
  c <> "/"%char -> Js.count c (Js.replace c "/" s) = Nat.pred (Js.count c s).
Proof.
  intros Hc. induction s; [reflexivity|]. rewrite replace_slash_cons.
  destruct (Ascii.eqb_spec a c) as [->|Hn]; cbn [Js.count].
  - rewrite (eqb_ne "/" c) by congruence. now rewrite Ascii.eqb_refl.
  - rewrite (eqb_ne a c) by assumption. exact IHs.
Qed.

Lemma count_replace_other d c s :
  d <> c -> d <> "/"%char -> Js.count d (Js.replace c "/" s) = Js.count d s.
Proof.
  intros Hdc Hd. induction s; [reflexivity|]. rewrite replace_slash_cons.
  destruct (Ascii.eqb_spec a c) as [->|Hn]; cbn [Js.count].
  - rewrite (eqb_ne "/" d), (eqb_ne c d) by congruence. reflexivity.
  - now rewrite IHs.
Qed.

Lemma count_replace_slash c s :
  c <> "/"%char ->
  Js.count "/" (Js.replace c "/" s) = (Js.count "/" s + Nat.min 1 (Js.count c s))%nat.
Proof.
  intros Hc. induction s; [reflexivity|]. rewrite replace_slash_cons.
  destruct (Ascii.eqb_spec a c) as [->|Hn]; cbn [Js.count].
  - rewrite (eqb_ne c "/") by assumption.
    rewrite !Ascii.eqb_refl. cbn [Nat.add]. lia.
  - rewrite (eqb_ne a c) by assumption. rewrite IHs. cbn [Nat.add]. lia.
Qed.

(** *** The slash inserted after three characters *)

Lemma insertSlash_shape s :
  (6 <= String.length s)%nat ->
  exists a b c d r,
    s = String a (String b (String c (String d r))) /\
    insertSlash s = String a (String b (String c (String "/" (String d r)))).
Proof.
  destruct s as [|a [|b [|c [|d r]]]]; simpl; try lia.
  intros _. exists a, b, c, d, r. split; reflexivity.
Qed.

Lemma count_insertSlash d s :
  Js.count d (insertSlash s) =
  (Js.count d s + if Ascii.eqb "/" d then 1 else 0)%nat.
Proof.
  unfold insertSlash. rewrite !count_append.
  rewrite <- (slice_append 3 s) at 3. rewrite count_append.
  cbn [Js.count]. lia.
Qed.

Lemma length_insertSlash s : String.length (insertSlash s) = S (String.length s).
Proof.
  unfold insertSlash. rewrite !length_append.
  rewrite <- (slice_append 3 s) at 3. rewrite length_append. simpl. lia.
Qed.

End ReplaceFacts.

(** ** Symbol normalisation *)

Section Normalisation.

Lemma normalizeSymbol_Some s :
  s <> "" -> normalizeSymbol (Some s) = Some (canonical (Js.trim s)).
Proof. destruct s; [congruence | reflexivity]. Qed.

Lemma normalizeSymbol_LongOnly D s :
  s <> "" -> LongOnly.normalizeSymbol D (Some s) = normalizeSymbol (Some s).
Proof. destruct s; [congruence | reflexivity]. Qed.

(** What [canonical] does to the separator counts, in general. *)
Lemma canonical_counts t :
  let u := canonical t in
  Js.count "-" u = Nat.pred (Js.count "-" t) /\
  Js.count "_" u = Nat.pred (Js.count "_" t) /\
  Js.count "/" u =
    (Js.count "/" t + Nat.min 1 (Js.count "-" t) + Nat.min 1 (Js.count "_" t)
     + if negb (Js.includes "/" (Js.replace "_" "/" (Js.replace "-" "/" t)))
          && (6 <=? String.length t)%nat then 1 else 0)%nat.
Proof.
  unfold canonical. cbv zeta.
  set (r := Js.replace "_" "/" (Js.replace "-" "/" t)).
  assert (Hd : Js.count "-" r = Nat.pred (Js.count "-" t)).
  { unfold r. rewrite count_replace_other, count_replace_same by discriminate.
    reflexivity. }
  assert (Hu : Js.count "_" r = Nat.pred (Js.count "_" t)).
  { unfold r. rewrite count_replace_same, count_replace_other by discriminate.
    reflexivity. }
  assert (Hs : Js.count "/" r =
               (Js.count "/" t + Nat.min 1 (Js.count "-" t)
                + Nat.min 1 (Js.count "_" t))%nat).
  { unfold r. rewrite !count_replace_slash by discriminate.
    rewrite count_replace_other by discriminate. lia. }
  assert (Hl : String.length r = String.length t).
  { unfold r. now rewrite !length_replace. }
  rewrite Hl.
  destruct (negb (Js.includes "/" r) && (6 <=? String.length t)%nat);
    rewrite !count_toUpperCase by (unfold isSep; auto);
    rewrite ?count_insertSlash; cbn [Ascii.eqb Bool.eqb]; repeat split; lia.
Qed.

Lemma canonical_upper t : Js.toUpperCase (canonical t) = canonical t.
Proof. unfold canonical. cbv zeta. apply toUpperCase_idem. Qed.

Lemma canonical_nonempty t : t <> "" -> canonical t <> "".
Proof.
  intros Ht. apply isEmpty_false_iff. unfold canonical. cbv zeta.
  unfold Js.toUpperCase. rewrite isEmpty_mapChars.
  set (r := Js.replace "_" "/" (Js.replace "-" "/" t)).
  assert (Hr : Js.isEmpty r = false).
  { unfold r. rewrite !isEmpty_replace. now apply isEmpty_false_iff. }
  destruct (negb (Js.includes "/" r) && (6 <=? String.length r)%nat) eqn:E;
    [|exact Hr].
  apply andb_true_iff in E as [_ E]. apply Nat.leb_le in E.
  destruct (insertSlash_shape r E) as (a & b & c & d & k & _ & ->). reflexivity.
Qed.

Lemma canonical_trimmed t :
  headOk t = true -> lastOk t = true ->
  headOk (canonical t) = true /\ lastOk (canonical t) = true.
Proof.
  intros Hh Hl. unfold canonical. cbv zeta.
  rewrite headOk_toUpperCase, lastOk_toUpperCase.
  set (r := Js.replace "_" "/" (Js.replace "-" "/" t)).
  assert (Hrh : headOk r = true).
  { unfold r. now rewrite !headOk_replace by reflexivity. }
  assert (Hrl : lastOk r = true).
  { unfold r. now rewrite !lastOk_replace by reflexivity. }
  destruct (negb (Js.includes "/" r) && (6 <=? String.length r)%nat) eqn:E;
    [|now split].
  apply andb_true_iff in E as [_ E]. apply Nat.leb_le in E.
  destruct (insertSlash_shape r E) as (a & b & c & d & k & Er & ->).
  rewrite Er in Hrh, Hrl. split; [exact Hrh | exact Hrl].
Qed.

(** A slash-free result is shorter than six characters. *)
Lemma canonical_short t :
  Js.includes "/" (canonical t) = false -> (String.length (canonical t) < 6)%nat.
Proof.
  unfold canonical. cbv zeta.
  set (r := Js.replace "_" "/" (Js.replace "-" "/" t)).
  destruct (negb (Js.includes "/" r) && (6 <=? String.length r)%nat) eqn:E;
    rewrite includes_count.
  - rewrite count_toUpperCase, count_insertSlash by (unfold isSep; auto).
    cbn [Ascii.eqb Bool.eqb].
    replace (Js.count "/" r + 1 =? 0)%nat with false; [discriminate|].
    symmetry. apply Nat.eqb_neq. lia.
  - rewrite count_toUpperCase by (unfold isSep; auto).
    rewrite includes_count in E. intros H. rewrite H in E. cbn [negb andb] in E.
    apply Nat.leb_gt in E. unfold Js.toUpperCase. now rewrite length_mapChars.
Qed.

(** [canonical] leaves its own results alone when no dash or underscore
    is left in them. *)
Lemma canonical_fixed u :
  Js.count "-" u = 0%nat -> Js.count "_" u = 0%nat ->
  Js.toUpperCase u = u ->
  (Js.includes "/" u = false -> (String.length u < 6)%nat) ->
  canonical u = u.
Proof.
  intros Hd Hu Hup Hshort. unfold canonical. cbv zeta.
  rewrite (replace_absent "-" "/" u Hd), (replace_absent "_" "/" u Hu).
  destruct (Js.includes "/" u) eqn:E; cbn [negb andb]; [exact Hup|].
  specialize (Hshort eq_refl). apply Nat.leb_gt in Hshort.
  now rewrite Hshort.
Qed.

Lemma canonical_idempotent t :
  t <> "" -> headOk t = true -> lastOk t = true ->
  (Js.count "-" t <= 1)%nat -> (Js.count "_" t <= 1)%nat ->
  canonical (Js.trim (canonical t)) = canonical t.
Proof.
  intros Ht Hh Hl Hd Hu.
  destruct (canonical_trimmed t Hh Hl) as [Hh' Hl'].
  rewrite (trim_fix _ Hh' Hl').
  destruct (canonical_counts t) as (Cd & Cu & _).
  apply canonical_fixed;
    [lia | lia | apply canonical_upper | apply canonical_short].
Qed.

End Normalisation.

(** C3, refuted as stated: with two dashes the second pass replaces the
    dash the first pass left behind. *)
Lemma normalizeSymbol_not_idempotent :
  normalizeSymbol (normalizeSymbol (Some "a-b-c"))
  <> normalizeSymbol (Some "a-b-c").
Proof. vm_compute. discriminate. Qed.

(** C3, amended: on an ASCII input with at most one dash and at most one
    underscore, normalising twice gives what normalising once gives: for
    the enhanced server when the input is empty or not all whitespace, for
    the long-only server when it is not all whitespace. *)
Theorem normalizeSymbol_idempotent_single_separator (s : string) :
  Js.isAscii s = true ->
  (Js.count "-" s <= 1)%nat ->
  (Js.count "_" s <= 1)%nat ->
  (s = "" \/ Js.trim s <> "" ->
   normalizeSymbol (normalizeSymbol (Some s)) = normalizeSymbol (Some s)) /\
  (Js.trim s <> "" ->
   forall D, LongOnly.normalizeSymbol D (LongOnly.normalizeSymbol D (Some s))
             = LongOnly.normalizeSymbol D (Some s)).
Proof.
  intros _ Hd Hu.
  assert (Hs : Js.trim s <> "" -> s <> "").
  { intros H ->. now apply H. }
  assert (Hcore : Js.trim s <> "" ->
                  normalizeSymbol (normalizeSymbol (Some s))
                  = normalizeSymbol (Some s)).
  { intros Ht. rewrite (normalizeSymbol_Some s (Hs Ht)).
    rewrite normalizeSymbol_Some by now apply canonical_nonempty.
    f_equal. apply canonical_idempotent; auto using headOk_trim, lastOk_trim.
    - now rewrite count_trim by (unfold isSep; auto).
    - now rewrite count_trim by (unfold isSep; auto). }
  split.
  - intros [-> | Ht]; [reflexivity | now apply Hcore].
  - intros Ht D. rewrite (normalizeSymbol_LongOnly D s (Hs Ht)).
    rewrite (normalizeSymbol_Some s (Hs Ht)).
    rewrite normalizeSymbol_LongOnly by now apply canonical_nonempty.
    rewrite <- (normalizeSymbol_Some s (Hs Ht)). now apply Hcore.
Qed.

Lemma normalizeSymbol_idempotent_witness :
  normalizeSymbol (normalizeSymbol (Some " eth-usdt "))
  = normalizeSymbol (Some " eth-usdt ").
Proof.
  apply (normalizeSymbol_idempotent_single_separator " eth-usdt ");
    [reflexivity | vm_compute; lia | vm_compute; lia | right; vm_compute; discriminate].
Defined.

(** C4, refuted as stated: a short ticker gets no separator at all, a
    second dash is left in place, and a dash together with an underscore
    give two slashes. *)
Lemma normalizeSymbol_separator_counterexample :
  normalizeSymbol (Some "abc") = Some "ABC" /\ Js.count "/" "ABC" = 0%nat /\
  normalizeSymbol (Some "a-b-c") = Some "A/B-C" /\ Js.count "-" "A/B-C" = 1%nat /\
  normalizeSymbol (Some "a-b_c") = Some "A/B/C" /\ Js.count "/" "A/B/C" = 2%nat.
Proof. repeat split; reflexivity. Qed.

(** C4, amended: for a non-empty ASCII input, with [t] the trimmed input,
    both servers return the same string [r], and [r] is upper case.  When
    [t] contains a slash, a dash or an underscore, [r] is [t] with its
    first dash and its first underscore replaced by a slash, in upper
    case, and nothing is inserted; when [t] contains none of them, [r] is
    [t] in upper case, with a slash inserted after the first three
    characters if [t] has at least six characters.  So every further dash
    or underscore stays, and [r] has exactly one slash and no dash or
    underscore when [t] has exactly one separator character, or none and
    at least six characters. *)
Theorem normalizeSymbol_shape (D s : string) :
  Js.isAscii s = true ->
  s <> "" ->
  let t := Js.trim s in
  let seps := (Js.count "/" t + Js.count "-" t + Js.count "_" t)%nat in
  exists r,
    normalizeSymbol (Some s) = Some r /\
    LongOnly.normalizeSymbol D (Some s) = Some r /\
    Js.toUpperCase r = r /\
    ((1 <= seps)%nat ->
     r = Js.toUpperCase (Js.replace "_" "/" (Js.replace "-" "/" t))) /\
    (seps = 0%nat -> (6 <= String.length t)%nat ->
     r = Js.toUpperCase (Js.sliceTo 3 t ++ "/" ++ Js.sliceFrom 3 t)) /\
    (seps = 0%nat -> (String.length t < 6)%nat -> r = Js.toUpperCase t) /\
    Js.count "-" r = Nat.pred (Js.count "-" t) /\
    Js.count "_" r = Nat.pred (Js.count "_" t) /\
    Js.count "/" r =
      (Js.count "/" t + Nat.min 1 (Js.count "-" t) + Nat.min 1 (Js.count "_" t)
       + if (seps =? 0)%nat && (6 <=? String.length t)%nat then 1 else 0)%nat /\
    (seps = 1%nat \/ (seps = 0%nat /\ (6 <= String.length t)%nat) ->
     Js.count "/" r = 1%nat /\ Js.count "-" r = 0%nat /\ Js.count "_" r = 0%nat).
Proof.
  intros _ Hs t seps. exists (canonical t).
  destruct (canonical_counts t) as (Cd & Cu & Cs).
  assert (Hinc : forall x, Js.includes "/" x = negb (Js.count "/" x =? 0)%nat)
    by (intros; apply includes_count).
  assert (Hr : Js.count "/" (Js.replace "_" "/" (Js.replace "-" "/" t)) =
               (Js.count "/" t + Nat.min 1 (Js.count "-" t)
                + Nat.min 1 (Js.count "_" t))%nat).
  { rewrite !count_replace_slash by discriminate.
    rewrite count_replace_other by discriminate. lia. }
  assert (Hzero : (Js.count "/" t + Nat.min 1 (Js.count "-" t)
                   + Nat.min 1 (Js.count "_" t) =? 0)%nat = (seps =? 0)%nat).
  { unfold seps. destruct (Nat.eqb_spec (Js.count "/" t + Js.count "-" t
                                         + Js.count "_" t) 0) as [E|E].
    - apply Nat.eqb_eq. lia.
    - apply Nat.eqb_neq. lia. }
  assert (Hslashes : Js.count "/" (canonical t) =
                     (Js.count "/" t + Nat.min 1 (Js.count "-" t)
                      + Nat.min 1 (Js.count "_" t)
                      + if (seps =? 0)%nat && (6 <=? String.length t)%nat
                        then 1 else 0)%nat).
  { rewrite Cs, Hinc, Hr, Hzero, negb_involutive. reflexivity. }
  assert (Hnone : seps = 0%nat ->
                  canonical t =
                  Js.toUpperCase
                    (if (6 <=? String.length t)%nat then insertSlash t else t)).
  { intros H0. unfold canonical. cbv zeta.
    rewrite !replace_absent by (try rewrite replace_absent; lia).
    rewrite Hinc. now replace (Js.count "/" t) with 0%nat by lia. }
  split; [now apply normalizeSymbol_Some|].
  split; [rewrite normalizeSymbol_LongOnly by assumption;
          now apply normalizeSymbol_Some|].
  split; [apply canonical_upper|].
  split.
  { intros Hsome. unfold canonical. cbv zeta. rewrite Hinc, Hr, Hzero.
    replace (seps =? 0)%nat with false by (symmetry; apply Nat.eqb_neq; lia).
    reflexivity. }
  split.
  { intros H0 Hlen. apply Nat.leb_le in Hlen. now rewrite (Hnone H0), Hlen. }
  split.
  { intros H0 Hlen. apply Nat.leb_gt in Hlen. now rewrite (Hnone H0), Hlen. }
  split; [exact Cd|]. split; [exact Cu|]. split; [exact Hslashes|].
  intros [H1 | [H0 Hlen]]; rewrite Hslashes, Cd, Cu.
  - replace (seps =? 0)%nat with false by (symmetry; apply Nat.eqb_neq; lia).
    cbn [andb]. unfold seps in H1. lia.
  - apply Nat.leb_le in Hlen. rewrite Hlen.
    replace (seps =? 0)%nat with true by (symmetry; apply Nat.eqb_eq; lia).
    cbn [andb]. unfold seps in H0. lia.
Qed.

Lemma normalizeSymbol_shape_witness :
  exists r,
    normalizeSymbol (Some "btc-usdt-perp") = Some r /\
    r = Js.toUpperCase (Js.replace "_" "/" (Js.replace "-" "/" "btc-usdt-perp")).
Proof.
  destruct (normalizeSymbol_shape "BTC/USDT:USDT" "btc-usdt-perp" eq_refl)
    as (r & H1 & _ & _ & H4 & _); [discriminate|].
  exists r. split; [exact H1|]. apply H4. vm_compute. lia.
Defined.

(** C5, refuted as stated for the long-only server (server.js line 65):
    there the empty string normalises to the default symbol. *)
Lemma normalizeSymbol_empty_counterexample :
  ~ (LongOnly.normalizeSymbol "BTC/USDT:USDT" (Some "btcusdt") = Some "BTC/USDT" /\
     LongOnly.normalizeSymbol "BTC/USDT:USDT" (Some "eth-usdt") = Some "ETH/USDT" /\
     LongOnly.normalizeSymbol "BTC/USDT:USDT" (Some "") = None).
Proof. intros (_ & _ & H). discriminate H. Qed.

(** C5, amended: both servers map "btcusdt" to "BTC/USDT" and "eth-usdt"
    to "ETH/USDT"; on the empty string the enhanced server's function
    returns null (no symbol), the long-only server's function returns the
    configured default symbol. *)
Theorem normalizeSymbol_examples :
  normalizeSymbol (Some "btcusdt") = Some "BTC/USDT" /\
  normalizeSymbol (Some "eth-usdt") = Some "ETH/USDT" /\
  normalizeSymbol (Some "") = None /\
  forall D,
    LongOnly.normalizeSymbol D (Some "btcusdt") = Some "BTC/USDT" /\
    LongOnly.normalizeSymbol D (Some "eth-usdt") = Some "ETH/USDT" /\
    LongOnly.normalizeSymbol D (Some "") = Some D.
Proof. repeat split; reflexivity. Qed.

(** ** The position sizer *)

Section SizerFacts.

Variable parseFloat : string -> float.

(** A positive number is not NaN. *)
Lemma positive_not_NaN (x : float) : (0 <? x)%float = true -> Js.isNaN x = false.
Proof.
  unfold Js.isNaN. rewrite FloatAxioms.ltb_spec, FloatAxioms.eqb_spec.
  destruct (Prim2SF x) as [s| s| |s m e]; try discriminate; intros _.
  - destruct s; reflexivity.
  - unfold SFeqb, SFcompare.
    rewrite Z.compare_refl, Pos.compare_cont_refl. destruct s; reflexivity.
Qed.

Lemma belowMinToZero_spec (m x : float) :
  belowMinToZero m x = if (0 <? x)%float && (x <? m)%float then 0%float else x.
Proof.
  unfold belowMinToZero. destruct (0 <? x)%float eqn:E.
  - now rewrite (positive_not_NaN x E).
  - now rewrite andb_false_r.
Qed.

(** Nothing is both positive and below a falsy minimum (0, -0 or NaN). *)
Lemma falsy_minimum_never_applies (m x : float) :
  Js.truthyNum m = false -> (0 <? x)%float && (x <? m)%float = false.
Proof.
  unfold Js.truthyNum.
  rewrite !FloatAxioms.eqb_spec, !FloatAxioms.ltb_spec.
  change (Prim2SF 0) with (S754_zero false).
  destruct (Prim2SF m) as [sm| sm| |sm mm em];
    destruct (Prim2SF x) as [sx| sx| |sx mx ex];
    try reflexivity; try (destruct sx; reflexivity);
    try (destruct sm; discriminate).
  all: unfold SFeqb, SFcompare; cbn;
    rewrite Z.compare_refl, Pos.compare_cont_refl;
    destruct sm; discriminate.
Qed.

Lemma enforceMinimum_declared mk m b s :
  Market.limits_amount_min mk = Some m ->
  enforceMinimum (Some mk) b s =
  (if (0 <? b)%float && (b <? m)%float then 0%float else b,
   if (0 <? s)%float && (s <? m)%float then 0%float else s).
Proof.
  intros Hm. unfold enforceMinimum. rewrite Hm.
  destruct (Js.truthyNum m) eqn:Ht.
  - now rewrite !belowMinToZero_spec.
  - now rewrite !(falsy_minimum_never_applies m _ Ht).
Qed.

Lemma baseQuoteOf_market mk symbol :
  baseQuoteOf (Some mk) symbol = (Some (Market.base mk), Some (Market.quote mk)).
Proof. reflexivity. Qed.

(** The sizer, once the balance and the price are there. *)
Lemma computeAllInAmounts_ok cfg ex marketSymbol bal p :
  fetchBalance ex = Ok bal ->
  priceOf (fetchTicker ex (mapToMarketKey ex marketSymbol)) = Some p ->
  let symbol := mapToMarketKey ex marketSymbol in
  let market := marketAt ex symbol in
  let bq := baseQuoteOf market symbol in
  let rawBuy := rawBuyOf cfg (freeOf bal (snd bq)) p in
  let rawSell := (freeOf bal (fst bq) * SAFETY_BUFFER cfg)%float in
  let rounded := roundToPrecision parseFloat ex symbol rawBuy rawSell in
  let final := enforceMinimum market (fst (fst rounded)) (snd (fst rounded)) in
  computeAllInAmounts parseFloat cfg ex marketSymbol =
  Ok {| symbol := snd rounded; base := fst bq; quote := snd bq; price := p;
        buyAmount := fst final; sellAmount := snd final;
        freeQuote := freeOf bal (snd bq); freeBase := freeOf bal (fst bq);
        rawBuyAmount := rawBuy; rawSellAmount := rawSell |}.
Proof.
  intros Hb Hp. cbv zeta. unfold computeAllInAmounts.
  destruct (baseQuoteOf _ _) as [b q]. rewrite Hb, Hp. cbn [fst snd].
  destruct (roundToPrecision _ _ _ _ _) as [[rb rs] sy]. cbn [fst snd].
  destruct (enforceMinimum _ _ _). reflexivity.
Qed.

Lemma computeAllInAmounts_no_price cfg ex marketSymbol bal :
  fetchBalance ex = Ok bal ->
  priceOf (fetchTicker ex (mapToMarketKey ex marketSymbol)) = None ->
  computeAllInAmounts parseFloat cfg ex marketSymbol =
  Throw ("Error: Cannot fetch price for symbol " ++ mapToMarketKey ex marketSymbol).
Proof.
  intros Hb Hp. unfold computeAllInAmounts.
  destruct (baseQuoteOf _ _) as [b q]. now rewrite Hb, Hp.
Qed.

Lemma roundToPrecision_key ex symbol atp key rb rs :
  amountToPrecision ex = Some atp ->
  precisionKey ex symbol = Some key ->
  fst (roundToPrecision parseFloat ex symbol rb rs)
  = fst (roundBoth parseFloat atp key rb rs).
Proof.
  unfold roundToPrecision, precisionKey. intros -> Hk.
  destruct (inMarkets ex symbol).
  - injection Hk as <-. now destruct (roundBoth _ _ _ _ _) as [[b s] c].
  - destruct (find _ (marketKeys ex)) as [f|]; cbn in Hk |- *.
    + destruct (Js.isEmpty f); cbn in Hk |- *; [discriminate|].
      injection Hk as <-. now destruct (roundBoth _ _ _ _ _) as [[b s] c].
    + discriminate.
Qed.

Lemma find_none_all {A} (f : A -> bool) (l : list A) :
  (forall x, In x l -> f x = false) -> find f l = None.
Proof.
  induction l as [|a l IH]; [reflexivity|]. intros H. simpl.
  rewrite (H a (or_introl eq_refl)). apply IH. intros x Hx. apply H. now right.
Qed.

(** A key that matches in the rounding step (line 185) also matches in
    the market resolution (line 138). *)
Lemma reconciles_of_same_stripped symbol k :
  String.eqb (Js.replace "/" "" k) (Js.replace "/" "" symbol) = true ->
  reconciles symbol k = true.
Proof.
  intros H. unfold reconciles, includesStr. cbn [existsb].
  rewrite H. rewrite !orb_true_r. reflexivity.
Qed.

Lemma no_market_no_rounding ex symbol :
  inMarkets ex symbol = false ->
  find (reconciles symbol) (marketKeys ex) = None ->
  mapToMarketKey ex symbol = symbol /\
  marketAt ex symbol = None /\
  forall rb rs, roundToPrecision parseFloat ex symbol rb rs = (rb, rs, symbol).
Proof.
  intros Hin Hfind. split; [|split].
  - unfold mapToMarketKey. destruct (markets ex); [|reflexivity].
    now rewrite Hin, Hfind.
  - unfold marketAt. unfold inMarkets, marketKeys in Hin.
    induction (default [] (markets ex)) as [|[k m] l IH]; [reflexivity|].
    cbn in Hin |- *. apply orb_false_iff in Hin as [Hk Hl].
    rewrite String.eqb_sym, Hk. now apply IH.
  - intros rb rs.
    unfold roundToPrecision. destruct (amountToPrecision ex); [|reflexivity].
    rewrite Hin. rewrite find_none_all; [reflexivity|].
    intros k Hk. destruct (String.eqb _ _) eqn:E; [|reflexivity].
    apply reconciles_of_same_stripped in E.
    now rewrite (find_none _ _ Hfind k Hk) in E.
Qed.

End SizerFacts.

(** C1: whenever the balance and a price are fetched the sizer returns,
    and its raw buy amount is [freeQuote * SAFETY_BUFFER / price], with
    the factor [LEVERAGE] in the numerator exactly when the exchange type
    is "swap" and leverage is enabled; with 1000 free USDT at price 50000
    it is 0.02 for a safety buffer of 1.0 and 0.01 for 0.5. *)
Theorem rawBuyAmount_formula :
  (forall parseFloat cfg ex marketSymbol bal p,
     fetchBalance ex = Ok bal ->
     priceOf (fetchTicker ex (mapToMarketKey ex marketSymbol)) = Some p ->
     exists r,
       computeAllInAmounts parseFloat cfg ex marketSymbol = Ok r /\
       price r = p /\
       freeQuote r = freeOf bal (quote r) /\
       rawBuyAmount r =
         if String.eqb (EXCHANGE_TYPE cfg) "swap" && USE_LEVERAGE_FOR_SWAPS cfg
         then (freeQuote r * SAFETY_BUFFER cfg * LEVERAGE cfg / p)%float
         else (freeQuote r * SAFETY_BUFFER cfg / p)%float) /\
  (exists r,
     computeAllInAmounts Scenario.toyParseFloat (Scenario.config 1.0 "")
       (Scenario.exchange 1000 (Ok 50000%float)) "BTC/USDT" = Ok r /\
     freeQuote r = 1000%float /\ price r = 50000%float /\
     rawBuyAmount r = 0.02%float) /\
  (exists r,
     computeAllInAmounts Scenario.toyParseFloat (Scenario.config 0.5 "")
       (Scenario.exchange 1000 (Ok 50000%float)) "BTC/USDT" = Ok r /\
     freeQuote r = 1000%float /\ price r = 50000%float /\
     rawBuyAmount r = 0.01%float).
Proof.
  split; [|split].
  - intros parseFloat cfg ex marketSymbol bal p Hb Hp.
    eexists. split; [apply (computeAllInAmounts_ok parseFloat cfg ex _ bal p Hb Hp)|].
    cbn [price freeQuote quote rawBuyAmount]. repeat split.
  - eexists. split; [vm_compute; reflexivity|]. repeat split.
  - eexists. split; [vm_compute; reflexivity|]. repeat split.
Qed.

(** C2: when the resolved market declares a minimum amount [m],
    the sizer returns, and each returned quantity is 0 if the rounded
    quantity is positive and below [m], the rounded quantity otherwise;
    with minimum 0.001 and a buy quantity rounded to 0.0005 the returned
    buy amount is 0. *)
Theorem minimum_size_zeroes_quantity :
  (forall parseFloat cfg ex marketSymbol bal p mk m b s sy,
     fetchBalance ex = Ok bal ->
     priceOf (fetchTicker ex (mapToMarketKey ex marketSymbol)) = Some p ->
     marketAt ex (mapToMarketKey ex marketSymbol) = Some mk ->
     Market.limits_amount_min mk = Some m ->
     roundToPrecision parseFloat ex (mapToMarketKey ex marketSymbol)
       (rawBuyOf cfg (freeOf bal (Some (Market.quote mk))) p)
       (freeOf bal (Some (Market.base mk)) * SAFETY_BUFFER cfg)%float
     = (b, s, sy) ->
     exists r,
       computeAllInAmounts parseFloat cfg ex marketSymbol = Ok r /\
       buyAmount r = (if (0 <? b)%float && (b <? m)%float then 0%float else b) /\
       sellAmount r = (if (0 <? s)%float && (s <? m)%float then 0%float else s)) /\
  (exists r raw,
     roundToPrecision Scenario.toyParseFloat
       (Scenario.exchange 25 (Ok 50000%float)) "BTC/USDT" raw 0
     = (0.0005%float, 0%float, "BTC/USDT") /\
     Market.limits_amount_min Scenario.btcMarket = Some 0.001%float /\
     computeAllInAmounts Scenario.toyParseFloat (Scenario.config 1.0 "")
       (Scenario.exchange 25 (Ok 50000%float)) "BTC/USDT" = Ok r /\
     rawBuyAmount r = raw /\
     buyAmount r = 0%float).
Proof.
  split.
  - intros parseFloat cfg ex marketSymbol bal p mk m b s sy Hb Hp Hmk Hm Hr.
    eexists. split; [apply (computeAllInAmounts_ok parseFloat cfg ex _ bal p Hb Hp)|].
    cbn [buyAmount sellAmount]. rewrite Hmk, baseQuoteOf_market. cbn [fst snd].
    rewrite Hr. cbn [fst snd].
    now rewrite (enforceMinimum_declared mk m b s Hm).
  - eexists. eexists. split; [|split; [|split; [|split]]].
    2: reflexivity. 2: vm_compute; reflexivity. 2: reflexivity.
    + vm_compute. reflexivity.
    + reflexivity.
Qed.

Lemma minimum_size_witness :
  exists r,
    computeAllInAmounts Scenario.toyParseFloat (Scenario.config 1.0 "")
      (Scenario.exchange 25 (Ok 50000%float)) "BTC/USDT" = Ok r /\
    buyAmount r = 0%float.
Proof.
  destruct (proj1 minimum_size_zeroes_quantity Scenario.toyParseFloat
              (Scenario.config 1.0 "") (Scenario.exchange 25 (Ok 50000%float))
              "BTC/USDT"
              {[ "USDT" := {| Balance.free := Some 25%float;
                              Balance.total := Some 25%float |} ]}
              50000%float Scenario.btcMarket 0.001%float
              0.0005%float 0%float "BTC/USDT")
    as (r & Hr & Hbuy & _); try reflexivity.
  exists r. split; [exact Hr | exact Hbuy].
Defined.

Lemma rawBuyAmount_formula_witness :
  exists r,
    computeAllInAmounts Scenario.toyParseFloat (Scenario.config 1.0 "")
      (Scenario.exchange 1000 (Ok 50000%float)) "BTC/USDT" = Ok r /\
    rawBuyAmount r = (freeQuote r * 1.0 / 50000)%float.
Proof.
  destruct (proj1 rawBuyAmount_formula Scenario.toyParseFloat
              (Scenario.config 1.0 "") (Scenario.exchange 1000 (Ok 50000%float))
              "BTC/USDT" _ 50000%float eq_refl eq_refl)
    as (r & Hr & _ & _ & Hraw).
  exists r. split; [exact Hr | exact Hraw].
Defined.

(** C8, refuted as stated: the buy amount is rounded (to 0.033), then
    rounding the sell amount 0 throws; the sizer returns, but with the
    rounded buy amount instead of the raw one. *)
Lemma rounding_failure_counterexample :
  exists r e,
    computeAllInAmounts Scenario.toyParseFloat (Scenario.config 1.0 "")
      (Scenario.exchange 1000 (Ok 30000%float)) "BTC/USDT" = Ok r /\
    Scenario.toyAmountToPrecision "BTC/USDT" (rawSellAmount r) = Throw e /\
    buyAmount r <> rawBuyAmount r.
Proof.
  eexists. eexists. split; [vm_compute; reflexivity|]. split; [reflexivity|].
  cbn [buyAmount rawBuyAmount]. intros H.
  apply (f_equal (fun x => PrimFloat.eqb x 0.033)) in H.
  vm_compute in H. discriminate H.
Qed.

(** C8, amended: when [amountToPrecision] throws, the sizer still returns
    (given the balance and a price); the raw amounts are reported as
    [rawBuyAmount] and [rawSellAmount]; the sell amount that goes into the
    minimum check is the raw one; the buy amount that goes into it is the
    raw one when the throw comes from rounding the buy amount, and the
    rounded one when only rounding the sell amount throws. *)
Theorem rounding_failure_not_fatal
    parseFloat cfg ex marketSymbol bal p atp key e :
  let symbol := mapToMarketKey ex marketSymbol in
  let market := marketAt ex symbol in
  let bq := baseQuoteOf market symbol in
  let rawBuy := rawBuyOf cfg (freeOf bal (snd bq)) p in
  let rawSell := (freeOf bal (fst bq) * SAFETY_BUFFER cfg)%float in
  fetchBalance ex = Ok bal ->
  priceOf (fetchTicker ex symbol) = Some p ->
  amountToPrecision ex = Some atp ->
  precisionKey ex symbol = Some key ->
  (atp key rawBuy = Throw e ->
   exists r,
     computeAllInAmounts parseFloat cfg ex marketSymbol = Ok r /\
     rawBuyAmount r = rawBuy /\ rawSellAmount r = rawSell /\
     (buyAmount r, sellAmount r) = enforceMinimum market rawBuy rawSell) /\
  (forall b, atp key rawBuy = Ok b -> atp key rawSell = Throw e ->
   exists r,
     computeAllInAmounts parseFloat cfg ex marketSymbol = Ok r /\
     rawBuyAmount r = rawBuy /\ rawSellAmount r = rawSell /\
     (buyAmount r, sellAmount r) = enforceMinimum market (parseFloat b) rawSell).
Proof.
  intros symbol market bq rawBuy rawSell Hb Hp Hatp Hkey.
  pose proof (computeAllInAmounts_ok parseFloat cfg ex marketSymbol bal p Hb Hp)
    as Hok. cbv zeta in Hok.
  fold symbol market bq rawBuy rawSell in Hok.
  pose proof (roundToPrecision_key parseFloat ex symbol atp key rawBuy rawSell
                Hatp Hkey) as Hround.
  split.
  - intros Hthrow. eexists. split; [exact Hok|].
    cbn [rawBuyAmount rawSellAmount buyAmount sellAmount].
    rewrite Hround. unfold roundBoth. rewrite Hthrow. cbn [fst snd].
    repeat split. now destruct (enforceMinimum market rawBuy rawSell).
  - intros b Hbuy Hsell. eexists. split; [exact Hok|].
    cbn [rawBuyAmount rawSellAmount buyAmount sellAmount].
    rewrite Hround. unfold roundBoth. rewrite Hbuy, Hsell. cbn [fst snd].
    repeat split. now destruct (enforceMinimum market (parseFloat b) rawSell).
Qed.

Lemma rounding_failure_witness :
  exists r,
    computeAllInAmounts Scenario.toyParseFloat (Scenario.config 1.0 "")
      (Scenario.exchange 1000 (Ok 30000%float)) "BTC/USDT" = Ok r /\
    rawSellAmount r = 0%float /\ sellAmount r = 0%float.
Proof.
  destruct (proj2 (rounding_failure_not_fatal Scenario.toyParseFloat
              (Scenario.config 1.0 "") (Scenario.exchange 1000 (Ok 30000%float))
              "BTC/USDT" _ 30000%float Scenario.toyAmountToPrecision "BTC/USDT"
              "InvalidOrder: amount must be greater than minimum amount precision"
              eq_refl eq_refl eq_refl eq_refl) "0.033" eq_refl eq_refl)
    as (r & Hr & _ & Hraw & Hmin).
  exists r. split; [exact Hr|]. split; [exact Hraw|].
  exact (f_equal snd Hmin).
Defined.

(** C9, refuted as stated: no market entry for the symbol and no price
    for it either; the sizer throws. *)
Lemma no_metadata_counterexample :
  let ex := Scenario.exchange 1000 (Throw "BadSymbol") in
  inMarkets ex "DOGE/EUR" = false /\
  find (reconciles "DOGE/EUR") (marketKeys ex) = None /\
  computeAllInAmounts Scenario.toyParseFloat (Scenario.config 1.0 "") ex "DOGE/EUR"
  = Throw "Error: Cannot fetch price for symbol DOGE/EUR".
Proof. repeat split; vm_compute; reflexivity. Qed.

(** An upper-case symbol is none of the names an object inherits, so
    [symbol in exchange.markets] and [exchange.markets[symbol]] see the
    market keys only. *)
Lemma canonical_symbol_not_inherited symbol :
  Js.toUpperCase symbol = symbol -> ~ In symbol objectPrototypeKeys.
Proof.
  intros Hup Hin. unfold objectPrototypeKeys in Hin. cbn [In] in Hin.
  repeat (destruct Hin as [<- | Hin]; [discriminate Hup|]). exact Hin.
Qed.

(** C9, amended: for a canonical (upper-case) symbol with no market entry,
    neither directly nor through the reconciliation of line 138, and once
    the balance is fetched: if the ticker gives a price the sizer returns
    a result for the unchanged symbol, with base and quote the first two
    pieces of the symbol split on "/", and the unrounded amounts; if it
    gives no price the sizer throws. *)
Theorem no_metadata_splits_symbol parseFloat cfg ex symbol bal :
  Js.toUpperCase symbol = symbol ->
  inMarkets ex symbol = false ->
  find (reconciles symbol) (marketKeys ex) = None ->
  fetchBalance ex = Ok bal ->
  let parts := Js.split "/" symbol in
  let freeQuote := freeOf bal (nth_error parts 1) in
  let freeBase := freeOf bal (nth_error parts 0) in
  match priceOf (fetchTicker ex symbol) with
  | Some p =>
      computeAllInAmounts parseFloat cfg ex symbol =
      Ok {| symbol := symbol;
            base := nth_error parts 0; quote := nth_error parts 1;
            price := p;
            buyAmount := rawBuyOf cfg freeQuote p;
            sellAmount := (freeBase * SAFETY_BUFFER cfg)%float;
            freeQuote := freeQuote; freeBase := freeBase;
            rawBuyAmount := rawBuyOf cfg freeQuote p;
            rawSellAmount := (freeBase * SAFETY_BUFFER cfg)%float |}
  | None =>
      computeAllInAmounts parseFloat cfg ex symbol =
      Throw ("Error: Cannot fetch price for symbol " ++ symbol)
  end.
Proof.
  intros _ Hin Hfind Hb parts fq fb.
  destruct (no_market_no_rounding parseFloat ex symbol Hin Hfind)
    as (Hkey & Hmk & Hround).
  destruct (priceOf (fetchTicker ex symbol)) as [p|] eqn:Hp.
  - rewrite <- Hkey in Hp.
    rewrite (computeAllInAmounts_ok parseFloat cfg ex symbol bal p Hb Hp).
    rewrite Hkey, Hmk. cbn [baseQuoteOf fst snd].
    fold parts. fold fq fb. rewrite Hround. reflexivity.
  - rewrite <- Hkey in Hp.
    rewrite (computeAllInAmounts_no_price parseFloat cfg ex symbol bal Hb Hp).
    now rewrite Hkey.
Qed.

Lemma no_metadata_witness :
  exists r,
    computeAllInAmounts Scenario.toyParseFloat (Scenario.config 1.0 "")
      (Scenario.exchange 1000 (Ok 2%float)) "DOGE/USDT" = Ok r /\
    base r = Some "DOGE" /\ quote r = Some "USDT".
Proof.
  eexists. split.
  - exact (no_metadata_splits_symbol Scenario.toyParseFloat (Scenario.config 1.0 "")
             (Scenario.exchange 1000 (Ok 2%float)) "DOGE/USDT" _
             eq_refl eq_refl eq_refl eq_refl).
  - split; reflexivity.
Defined.

(** ** The duplicate guard *)

Section DuplicateFacts.

Lemma purgeOld_lookup now (m : gmap string Z) k t :
  purgeOld now m !! k = Some t <-> m !! k = Some t /\ (now - t <= DUP_TTL_MS)%Z.
Proof.
  unfold purgeOld. rewrite map_lookup_filter_Some. cbn [snd]. 
  split; intros [H1 H2]; (split; [exact H1 | lia]).
Qed.

Lemma purgeOld_lookup_None now (m : gmap string Z) k :
  purgeOld now m !! k = None <->
  forall t, m !! k = Some t -> (now - t > DUP_TTL_MS)%Z.
Proof.
  split.
  - intros Hn t Ht. destruct (Z_gt_dec (now - t) DUP_TTL_MS) as [|Hle]; [assumption|].
    assert (purgeOld now m !! k = Some t) as E by (apply purgeOld_lookup; split; [assumption | lia]).
    congruence.
  - intros H. destruct (purgeOld now m !! k) as [t|] eqn:E; [|reflexivity].
    apply purgeOld_lookup in E as [E1 E2]. specialize (H t E1). lia.
Qed.

Lemma isDuplicate_seen key now m :
  is_Some (purgeOld now m !! key) ->
  isDuplicate key now m = (true, purgeOld now m).
Proof. intros [t Ht]. unfold isDuplicate. now rewrite Ht. Qed.

Lemma isDuplicate_new key now m :
  purgeOld now m !! key = None ->
  isDuplicate key now m = (false, <[key := now]> (purgeOld now m)).
Proof. intros Hn. unfold isDuplicate. now rewrite Hn. Qed.

Lemma isDuplicate_false key now m :
  fst (isDuplicate key now m) = false ->
  isDuplicate key now m = (false, <[key := now]> (purgeOld now m)).
Proof.
  unfold isDuplicate. destruct (purgeOld now m !! key); [discriminate | reflexivity].
Qed.

(** The entry written at [t1], looked at again at [t2]. *)
Lemma isDuplicate_again_within key t1 t2 (m : gmap string Z) :
  (t2 - t1 <= DUP_TTL_MS)%Z ->
  isDuplicate key t2 (<[key := t1]> m) = (true, purgeOld t2 (<[key := t1]> m))
  /\ purgeOld t2 (<[key := t1]> m) !! key = Some t1.
Proof.
  intros Hle.
  assert (purgeOld t2 (<[key := t1]> m) !! key = Some t1) as E.
  { apply purgeOld_lookup. split; [apply lookup_insert_eq | exact Hle]. }
  split; [|exact E]. apply isDuplicate_seen. now exists t1.
Qed.

Lemma isDuplicate_again_after key t1 t2 (m : gmap string Z) :
  (t2 - t1 > DUP_TTL_MS)%Z ->
  isDuplicate key t2 (<[key := t1]> m)
  = (false, <[key := t2]> (purgeOld t2 (<[key := t1]> m))).
Proof.
  intros Hgt. apply isDuplicate_new. apply purgeOld_lookup_None.
  intros t. rewrite lookup_insert_eq. intros [= <-]. exact Hgt.
Qed.

End DuplicateFacts.

(** ** The webhook handler *)

Section HandlerFacts.

Variable parseFloat : string -> float.
Variable JSON_stringify : Payload.t -> string.
Variable JSON_parse : string -> Result (option Payload.t).
Variable sha256hex : string -> string.
Variable hmacSha256hex : string -> string -> string.

Local Abbreviation webhook' := (webhook parseFloat JSON_stringify JSON_parse sha256hex hmacSha256hex).
Local Abbreviation process' := (processSignal parseFloat JSON_parse).
Local Abbreviation rawTextOf' := (rawTextOf JSON_stringify).
Local Abbreviation verify' := (verifySignature hmacSha256hex).

(** Past the signature check, a request that is not a duplicate. *)
Lemma webhook_new cfg ex req now m :
  verify' cfg req (rawTextOf' req) = Next tt ->
  fst (isDuplicate (sha256hex (rawTextOf' req)) now m) = false ->
  webhook' cfg ex req now m =
  {| response := fst (process' cfg ex req (rawTextOf' req));
     recentPayloads' := <[sha256hex (rawTextOf' req) := now]> (purgeOld now m);
     orders := snd (process' cfg ex req (rawTextOf' req)) |}.
Proof.
  intros Hv Hd. unfold webhook. rewrite Hv.
  rewrite (isDuplicate_false _ _ _ Hd).
  now destruct (processSignal _ _ _ _ _ _) as [r calls].
Qed.

(** Past the signature check, a duplicate. *)
Lemma webhook_duplicate cfg ex req now m :
  verify' cfg req (rawTextOf' req) = Next tt ->
  fst (isDuplicate (sha256hex (rawTextOf' req)) now m) = true ->
  webhook' cfg ex req now m =
  {| response := {| status := 200; json := DuplicateJson |};
     recentPayloads' := snd (isDuplicate (sha256hex (rawTextOf' req)) now m);
     orders := [] |}.
Proof.
  intros Hv Hd. unfold webhook. rewrite Hv.
  destruct (isDuplicate _ _ _) as [dup m']. cbn [fst snd] in *. now rewrite Hd.
Qed.

(** The signature check, case by case (lines 277-288). *)
Lemma verifySignature_cases cfg req rawText :
  WEBHOOK_SECRET cfg <> "" ->
  let sig := signatureOf cfg req in
  let computed := computeHmac hmacSha256hex (WEBHOOK_SECRET cfg) rawText in
  (sig = "" ->
   verify' cfg req rawText
   = Reply {| status := 401; json := ErrorJson "missing_signature" |}) /\
  (sig <> "" -> Js.byteLength sig <> Js.byteLength computed ->
   exists e, verify' cfg req rawText = Raise e) /\
  (sig <> "" -> Js.byteLength sig = Js.byteLength computed -> sig <> computed ->
   verify' cfg req rawText
   = Reply {| status := 401; json := ErrorJson "invalid_signature" |}) /\
  (sig <> "" -> sig = computed -> verify' cfg req rawText = Next tt).
Proof.
  intros Hsecret sig computed. unfold verifySignature.
  apply isEmpty_false_iff in Hsecret. rewrite Hsecret. cbn [negb].
  fold sig. fold computed. unfold timingSafeEqual.
  repeat split.
  - intros ->. reflexivity.
  - intros Hs Hlen. apply isEmpty_false_iff in Hs. rewrite Hs.
    apply Nat.eqb_neq in Hlen. rewrite Hlen. cbn. eauto.
  - intros Hs Hlen Hne. apply isEmpty_false_iff in Hs. rewrite Hs.
    apply Nat.eqb_eq in Hlen. rewrite Hlen.
    apply String.eqb_neq in Hne. rewrite Hne. reflexivity.
  - intros Hs Heq. apply isEmpty_false_iff in Hs. rewrite Hs.
    rewrite <- Heq, Nat.eqb_refl, String.eqb_refl. reflexivity.
Qed.

End HandlerFacts.

(** C6: [isDuplicate] first drops the entries older than 30 s, then
    answers true and leaves the map alone when the key is still there,
    and otherwise records the key at the current time and answers false.
    So a key recorded at [t1] is a duplicate at any [t2] with
    [t2 - t1 <= 30000] and new again when [t2 - t1 > 30000]; and a
    request that passes the signature check and is taken as new at [t1]
    gets [{ok: true, duplicate: true}] when sent again within the window,
    and is processed again when sent after it. *)
Theorem duplicate_guard_window :
  (forall key now (m : gmap string Z),
     let live := purgeOld now m in
     (forall k t, live !! k = Some t <-> m !! k = Some t /\ (now - t <= 30000)%Z) /\
     (is_Some (live !! key) -> isDuplicate key now m = (true, live)) /\
     (live !! key = None ->
      isDuplicate key now m = (false, <[key := now]> live))) /\
  (forall key t1 t2 (m : gmap string Z),
     fst (isDuplicate key t1 m) = false ->
     let m1 := snd (isDuplicate key t1 m) in
     ((t2 - t1 <= 30000)%Z ->
      fst (isDuplicate key t2 m1) = true /\
      snd (isDuplicate key t2 m1) !! key = Some t1) /\
     ((t2 - t1 > 30000)%Z ->
      fst (isDuplicate key t2 m1) = false /\
      snd (isDuplicate key t2 m1) !! key = Some t2)) /\
  (forall parseFloat JSON_stringify JSON_parse sha256hex hmacSha256hex
          cfg ex1 ex2 req t1 t2 m,
     let rawText := rawTextOf JSON_stringify req in
     let run := webhook parseFloat JSON_stringify JSON_parse sha256hex hmacSha256hex cfg in
     verifySignature hmacSha256hex cfg req rawText = Next tt ->
     fst (isDuplicate (sha256hex rawText) t1 m) = false ->
     let m1 := recentPayloads' (run ex1 req t1 m) in
     ((t2 - t1 <= 30000)%Z ->
      response (run ex2 req t2 m1) = {| status := 200; json := DuplicateJson |}) /\
     ((t2 - t1 > 30000)%Z ->
      response (run ex2 req t2 m1)
      = fst (processSignal parseFloat JSON_parse cfg ex2 req rawText))).
Proof.
  split; [|split].
  - intros key now m live. split; [|split].
    + intros k t. apply purgeOld_lookup.
    + apply isDuplicate_seen.
    + apply isDuplicate_new.
  - intros key t1 t2 m Hnew m1. unfold m1.
    rewrite (isDuplicate_false _ _ _ Hnew). cbn [snd]. split.
    + intros Hle.
      destruct (isDuplicate_again_within key t1 t2 (purgeOld t1 m) Hle) as [-> E].
      split; [reflexivity | exact E].
    + intros Hgt. rewrite (isDuplicate_again_after key t1 t2 _ Hgt).
      split; [reflexivity | apply lookup_insert_eq].
  - intros parseFloat JSON_stringify JSON_parse sha256hex hmacSha256hex
           cfg ex1 ex2 req t1 t2 m rawText run Hv Hnew m1.
    unfold m1, run.
    rewrite (webhook_new _ _ _ _ _ cfg ex1 req t1 m Hv Hnew). cbn [recentPayloads'].
    split.
    + intros Hle.
      destruct (isDuplicate_again_within (sha256hex rawText) t1 t2
                  (purgeOld t1 m) Hle) as [E _].
      rewrite webhook_duplicate; [reflexivity | exact Hv |].
      fold rawText. now rewrite E.
    + intros Hgt.
      pose proof (isDuplicate_again_after (sha256hex rawText) t1 t2
                    (purgeOld t1 m) Hgt) as E.
      rewrite webhook_new; [reflexivity | exact Hv |].
      fold rawText. now rewrite E.
Qed.

Lemma duplicate_guard_witness :
  fst (isDuplicate "k" 31000 (snd (isDuplicate "k" 1000 ∅))) = true /\
  fst (isDuplicate "k" 31001 (snd (isDuplicate "k" 1000 ∅))) = false.
Proof.
  destruct (proj1 (proj2 duplicate_guard_window) "k" 1000%Z 31000%Z ∅)
    as [Hin _]; [vm_compute; reflexivity|].
  destruct (proj1 (proj2 duplicate_guard_window) "k" 1000%Z 31001%Z ∅)
    as [_ Hout]; [vm_compute; reflexivity|].
  split; [apply Hin | apply Hout]; lia.
Defined.

(** C7: with a webhook secret configured, a missing signature is
    answered 401, a signature of as many bytes as the expected digest but
    different from it is answered 401, and the expected digest passes; but
    a signature of another byte length makes [timingSafeEqual] throw, and
    the request is answered 500 by the outer [catch] (nothing is recorded
    and no order is placed in any of the refusals). *)
Theorem signature_check_statuses
    parseFloat JSON_stringify JSON_parse sha256hex hmacSha256hex
    cfg ex req now m :
  WEBHOOK_SECRET cfg <> "" ->
  let rawText := rawTextOf JSON_stringify req in
  let sig := signatureOf cfg req in
  let computed := computeHmac hmacSha256hex (WEBHOOK_SECRET cfg) rawText in
  let out := webhook parseFloat JSON_stringify JSON_parse sha256hex hmacSha256hex
               cfg ex req now m in
  (sig = "" ->
   out = {| response := {| status := 401; json := ErrorJson "missing_signature" |};
            recentPayloads' := m; orders := [] |}) /\
  (sig <> "" -> Js.byteLength sig = Js.byteLength computed -> sig <> computed ->
   out = {| response := {| status := 401; json := ErrorJson "invalid_signature" |};
            recentPayloads' := m; orders := [] |}) /\
  (sig <> "" -> Js.byteLength sig <> Js.byteLength computed ->
   status (response out) = 500%Z /\ recentPayloads' out = m /\ orders out = []) /\
  (sig <> "" -> sig = computed ->
   verifySignature hmacSha256hex cfg req rawText = Next tt).
Proof.
  intros Hsecret rawText sig computed out.
  destruct (verifySignature_cases hmacSha256hex cfg req rawText Hsecret)
    as (Hmissing & Hlength & Hinvalid & Hpass).
  fold sig computed in Hmissing, Hlength, Hinvalid, Hpass.
  split; [|split; [|split]].
  - intros Hs. unfold out, webhook. fold rawText. now rewrite (Hmissing Hs).
  - intros Hs Hlen Hne. unfold out, webhook. fold rawText.
    now rewrite (Hinvalid Hs Hlen Hne).
  - intros Hs Hlen. destruct (Hlength Hs Hlen) as [e He].
    unfold out, webhook. fold rawText. rewrite He. repeat split.
  - exact Hpass.
Qed.

(** The failing input of C7: a three-character signature against a
    64-digit digest. *)
Lemma signature_wrong_length_500 :
  status (response
    (webhook Scenario.toyParseFloat Scenario.toyStringify Scenario.toyParse
       Scenario.toySha Scenario.toyHmac (Scenario.config 1.0 "s3cret")
       (Scenario.exchange 1000 (Ok 50000%float))
       (Scenario.textRequest "buy BTC/USDT" {[ "x-webhook-signature" := "abc" ]})
       0 ∅)) = 500%Z.
Proof.
  apply (signature_check_statuses Scenario.toyParseFloat Scenario.toyStringify
           Scenario.toyParse Scenario.toySha Scenario.toyHmac
           (Scenario.config 1.0 "s3cret")
           (Scenario.exchange 1000 (Ok 50000%float))
           (Scenario.textRequest "buy BTC/USDT" {[ "x-webhook-signature" := "abc" ]})
           0%Z ∅);
    [discriminate | vm_compute; discriminate | vm_compute; lia].
Defined.

(** The boundary is in bytes: against the 64-byte digest, 62 letters and
    one code unit 233 (two bytes in UTF-8) are compared and refused with
    401, while 63 letters and that code unit (65 bytes) throw. *)
Example signature_byte_length_boundary :
  let e9 := String (ascii_of_nat 233) "" in
  let a62 := "aaaaaaaaaaaaaaaaaaaaaaaaaaaaaaaaaaaaaaaaaaaaaaaaaaaaaaaaaaaaaa" in
  let run sig :=
    response
      (webhook Scenario.toyParseFloat Scenario.toyStringify Scenario.toyParse
         Scenario.toySha Scenario.toyHmac (Scenario.config 1.0 "s3cret")
         (Scenario.exchange 1000 (Ok 50000%float))
         (Scenario.textRequest "buy BTC/USDT" {[ "x-webhook-signature" := sig ]})
         0 ∅) in
  String.length (a62 ++ e9) = 63%nat /\
  run (a62 ++ e9) = {| status := 401; json := ErrorJson "invalid_signature" |} /\
  String.length ("a" ++ a62 ++ e9) = 64%nat /\
  status (run ("a" ++ a62 ++ e9)) = 500%Z.
Proof. repeat split; vm_compute; reflexivity. Qed.

(** C10: once the signature check is passed and the body is not already
    recorded, the handler records the body's hash before it looks at the
    payload: whatever the response (an error included), the map holds the
    hash at the request's time, and the same body sent again within 30 s
    is answered [{ok: true, duplicate: true}] with no order call. *)
Theorem duplicate_recorded_before_processing
    parseFloat JSON_stringify JSON_parse sha256hex hmacSha256hex
    cfg ex1 ex2 req t1 t2 m :
  let rawText := rawTextOf JSON_stringify req in
  let run := webhook parseFloat JSON_stringify JSON_parse sha256hex hmacSha256hex cfg in
  verifySignature hmacSha256hex cfg req rawText = Next tt ->
  fst (isDuplicate (sha256hex rawText) t1 m) = false ->
  let out1 := run ex1 req t1 m in
  response out1 = fst (processSignal parseFloat JSON_parse cfg ex1 req rawText) /\
  orders out1 = snd (processSignal parseFloat JSON_parse cfg ex1 req rawText) /\
  recentPayloads' out1 = <[sha256hex rawText := t1]> (purgeOld t1 m) /\
  ((t2 - t1 <= 30000)%Z ->
   let out2 := run ex2 req t2 (recentPayloads' out1) in
   response out2 = {| status := 200; json := DuplicateJson |} /\
   orders out2 = [] /\
   recentPayloads' out2 !! sha256hex rawText = Some t1).
Proof.
  intros rawText run Hv Hnew out1. unfold out1, run.
  rewrite (webhook_new _ _ _ _ _ cfg ex1 req t1 m Hv Hnew).
  cbn [response orders recentPayloads']. fold rawText.
  split; [reflexivity|]. split; [reflexivity|]. split; [reflexivity|].
  intros Hle.
  destruct (isDuplicate_again_within (sha256hex rawText) t1 t2
              (purgeOld t1 m) Hle) as [E1 E2].
  rewrite webhook_duplicate; [ | exact Hv | fold rawText; now rewrite E1 ].
  cbn [response orders recentPayloads']. fold rawText. rewrite E1.
  split; [reflexivity|]. split; [reflexivity | exact E2].
Qed.

Lemma duplicate_recorded_witness :
  let run := webhook Scenario.toyParseFloat Scenario.toyStringify Scenario.toyParse
               Scenario.toySha Scenario.toyHmac (Scenario.config 1.0 "")
               (Scenario.exchange 1000 (Ok 50000%float))
               (Scenario.textRequest "hold BTC/USDT" ∅) in
  response (run 1000%Z ∅) = {| status := 400; json := ErrorJson "Unknown action" |} /\
  response (run 31000%Z (recentPayloads' (run 1000%Z ∅)))
  = {| status := 200; json := DuplicateJson |}.
Proof.
  destruct (duplicate_recorded_before_processing
              Scenario.toyParseFloat Scenario.toyStringify Scenario.toyParse
              Scenario.toySha Scenario.toyHmac (Scenario.config 1.0 "")
              (Scenario.exchange 1000 (Ok 50000%float))
              (Scenario.exchange 1000 (Ok 50000%float))
              (Scenario.textRequest "hold BTC/USDT" ∅) 1000%Z 31000%Z ∅)
    as (H1 & _ & _ & H2); [reflexivity | vm_compute; reflexivity |].
  split; [exact H1|]. apply H2. lia.
Defined.

(** Three requests that fail after the duplicate guard, each followed by
    the same body 30 s later: a malformed payload, a quantity below the
    minimum, and a rejected order. *)
Example failed_requests_then_duplicate :
  let run usdt text :=
    webhook Scenario.toyParseFloat Scenario.toyStringify Scenario.toyParse
      Scenario.toySha Scenario.toyHmac (Scenario.config 1.0 "")
      (Scenario.exchange usdt (Ok 50000%float))
      (Scenario.textRequest text ∅) in
  let again usdt text :=
    response (run usdt text 30000%Z (recentPayloads' (run usdt text 0%Z ∅))) in
  response (run 1000%float " " 0%Z ∅)
  = {| status := 400; json := ErrorJson "Empty payload" |} /\
  again 1000%float " " = {| status := 200; json := DuplicateJson |} /\
  response (run 25%float "buy btcusdt" 0%Z ∅)
  = {| status := 400; json := TooSmallJson "Computed buy size too small" 0 |} /\
  again 25%float "buy btcusdt" = {| status := 200; json := DuplicateJson |} /\
  response (run 1000%float "buy btcusdt" 0%Z ∅)
  = {| status := 500; json := OrderFailedJson "InsufficientFunds" |} /\
  orders (run 1000%float "buy btcusdt" 0%Z ∅) = [("BTC/USDT", "buy", 0.02%float)] /\
  again 1000%float "buy btcusdt" = {| status := 200; json := DuplicateJson |}.
Proof. repeat split; vm_compute; reflexivity. Qed.

(** ** The market loader *)

Section LoaderFacts.

Variable answers : nat -> Result (list (string * Market.t)).

Lemma loadMarkets_step retry st :
  loadMarkets answers retry st =
  match answers (Loader.calls st) with
  | Ok mk =>
      {| Loader.marketsReady := true; Loader.loaded := Some mk;
         Loader.calls := S (Loader.calls st); Loader.waits := Loader.waits st |}
  | Throw _ =>
      if lt_dec retry 3 then
        loadMarkets answers (S retry)
          {| Loader.marketsReady := Loader.marketsReady st;
             Loader.loaded := Loader.loaded st;
             Loader.calls := S (Loader.calls st);
             Loader.waits := S (Loader.waits st) |}
      else
        {| Loader.marketsReady := Loader.marketsReady st;
           Loader.loaded := Loader.loaded st;
           Loader.calls := S (Loader.calls st);
           Loader.waits := Loader.waits st |}
  end.
Proof.
  rewrite loadMarkets_equation_1.
  destruct (answers (Loader.calls st)); [reflexivity|].
  cbn [loadMarkets_unfold_clause_1].
  destruct (lt_dec retry 3); [|reflexivity].
  apply loadMarkets_clause_1_clause_2_equation_1.
Qed.

(** From [retry] on, with [k = 3 - retry] retries left. *)
Lemma loadMarkets_from k : forall retry st,
  (3 - retry = k)%nat ->
  let st' := loadMarkets answers retry st in
  let c := Loader.calls st in
  exists n,
    (1 <= n <= S k)%nat /\
    Loader.calls st' = (c + n)%nat /\
    Loader.waits st' = (Loader.waits st + (n - 1))%nat /\
    (forall j, (j < n - 1)%nat -> exists e, answers (c + j)%nat = Throw e) /\
    ((exists mk, answers (c + (n - 1))%nat = Ok mk /\
                 Loader.marketsReady st' = true /\ Loader.loaded st' = Some mk)
     \/ (n = S k /\ (exists e, answers (c + k)%nat = Throw e) /\
         Loader.marketsReady st' = Loader.marketsReady st /\
         Loader.loaded st' = Loader.loaded st)).
Proof.
  induction k as [|k IH]; intros retry st Hk st' c; subst st' c;
    rewrite loadMarkets_step;
    destruct (answers (Loader.calls st)) as [mk|e] eqn:Ha.
  - exists 1%nat. cbn [Loader.calls Loader.waits Loader.marketsReady Loader.loaded].
    repeat split; try lia. left. exists mk. rewrite Nat.add_0_r. auto.
  - destruct (lt_dec retry 3) as [Hlt|_]; [lia|].
    exists 1%nat. cbn [Loader.calls Loader.waits Loader.marketsReady Loader.loaded].
    repeat split; try lia. right. rewrite Nat.add_0_r. eauto.
  - exists 1%nat. cbn [Loader.calls Loader.waits Loader.marketsReady Loader.loaded].
    repeat split; try lia. left. exists mk. rewrite Nat.add_0_r. auto.
  - destruct (lt_dec retry 3) as [Hlt|Hge]; [|lia].
    set (st1 := {| Loader.marketsReady := Loader.marketsReady st;
                   Loader.loaded := Loader.loaded st;
                   Loader.calls := S (Loader.calls st);
                   Loader.waits := S (Loader.waits st) |}).
    destruct (IH (S retry) st1 ltac:(lia)) as (n & Hn & Hc & Hw & Hfail & Hend).
    cbn [Loader.calls Loader.waits Loader.marketsReady Loader.loaded st1] in *.
    exists (S n). split; [lia|]. split; [lia|]. split; [lia|]. split.
    + intros j Hj. destruct j as [|j].
      * rewrite Nat.add_0_r. eauto.
      * replace (Loader.calls st + S j)%nat with (S (Loader.calls st) + j)%nat by lia.
        apply Hfail. lia.
    + replace (Loader.calls st + (S n - 1))%nat
        with (S (Loader.calls st) + (n - 1))%nat by lia.
      replace (Loader.calls st + S k)%nat with (S (Loader.calls st) + k)%nat by lia.
      destruct Hend as [Hok | (Hn4 & Hthrow & Hr & Hl)]; [left; exact Hok|].
      right. repeat split; [lia | exact Hthrow | exact Hr | exact Hl].
Qed.

End LoaderFacts.

(** X1: [loadMarkets()] calls [exchange.loadMarkets] between one and four
    times and waits 2 s between consecutive calls; it stops at the first
    call that succeeds, and then [marketsReady] is set and the markets are
    the ones that call answered; when all four calls fail it gives up and
    leaves [marketsReady] and the markets as they were. *)
Theorem loadMarkets_at_most_four_calls answers st :
  let st' := loadMarkets answers 0 st in
  let c := Loader.calls st in
  exists n,
    (1 <= n <= 4)%nat /\
    Loader.calls st' = (c + n)%nat /\
    Loader.waits st' = (Loader.waits st + (n - 1))%nat /\
    (forall j, (j < n - 1)%nat -> exists e, answers (c + j)%nat = Throw e) /\
    ((exists mk, answers (c + (n - 1))%nat = Ok mk /\
                 Loader.marketsReady st' = true /\ Loader.loaded st' = Some mk)
     \/ (n = 4%nat /\ (exists e, answers (c + 3)%nat = Throw e) /\
         Loader.marketsReady st' = Loader.marketsReady st /\
         Loader.loaded st' = Loader.loaded st)).
Proof. exact (loadMarkets_from answers 3 0 st eq_refl). Qed.

(** ** Leverage *)

Lemma SFcompare_refl_finite s m e :
  SFcompare (S754_finite s m e) (S754_finite s m e) = Some Eq.
Proof.
  unfold SFcompare. rewrite Z.compare_refl, Pos.compare_cont_refl.
  now destruct s.
Qed.

(** Comparing the other way round gives the opposite answer. *)
Lemma SFcompare_antisym x y :
  SFcompare y x = option_map CompOpp (SFcompare x y).
Proof.
  destruct x as [sx| sx| |sx mx ex], y as [sy| sy| |sy my ey];
    try reflexivity; try (destruct sx; reflexivity);
    try (destruct sy; reflexivity);
    try (destruct sx, sy; reflexivity).
  cbn [SFcompare option_map].
  destruct sx, sy; try reflexivity.
  - rewrite (Z.compare_antisym ey ex).
    destruct (ey ?= ex)%Z; cbn [CompOpp]; try reflexivity.
    pose proof (Pos.compare_cont_antisym mx my Eq) as H. cbn [CompOpp] in H.
    rewrite <- H. now destruct (Pos.compare_cont Eq mx my).
  - rewrite (Z.compare_antisym ey ex).
    destruct (ey ?= ex)%Z; cbn [CompOpp]; try reflexivity.
    pose proof (Pos.compare_cont_antisym my mx Eq) as H. cbn [CompOpp] in H.
    rewrite <- H. now destruct (Pos.compare_cont Eq my mx).
Qed.

Lemma Prim2SF_one_finite :
  exists m e, Prim2SF 1 = S754_finite false m e.
Proof. eexists. eexists. vm_compute. reflexivity. Qed.

(** [!x || x <= 1] says the same as "not [x > 1]". *)
Lemma falsy_or_at_most_one (x : float) :
  negb (Js.truthyNum x) || (x <=? 1)%float = negb (1 <? x)%float.
Proof.
  unfold Js.truthyNum.
  rewrite !FloatAxioms.eqb_spec, FloatAxioms.leb_spec, FloatAxioms.ltb_spec.
  change (Prim2SF 0) with (S754_zero false).
  destruct Prim2SF_one_finite as (m1 & e1 & ->).
  unfold SFleb, SFltb.
  rewrite (SFcompare_antisym (Prim2SF x) (S754_finite false m1 e1)).
  destruct (Prim2SF x) as [s| s| |s m e]; try reflexivity;
    try (destruct s; reflexivity).
  assert (Hz : SFeqb (S754_finite s m e) (S754_zero false) = false)
    by (destruct s; reflexivity).
  assert (Hx : SFeqb (S754_finite s m e) (S754_finite s m e) = true)
    by (unfold SFeqb; now rewrite SFcompare_refl_finite).
  rewrite Hz, Hx. cbn [negb andb orb SFcompare option_map].
  destruct s; [reflexivity|].
  destruct (e ?= e1)%Z; try reflexivity.
  now destruct (Pos.compare_cont Eq m m1).
Qed.

(** X2: [setLeverageIfNeeded] calls [exchange.setLeverage], once and with
    the configured leverage and the symbol, exactly when the exchange type
    is "swap", leverage is enabled, the client has the method and the
    leverage is greater than 1; a zero, NaN or at-most-1 leverage never
    reaches the exchange. *)
Theorem setLeverage_called_iff cfg setLeverage symbol :
  setLeverageIfNeeded cfg setLeverage symbol =
  if String.eqb (EXCHANGE_TYPE cfg) "swap" && USE_LEVERAGE_FOR_SWAPS cfg
     && bool_decide (is_Some setLeverage) && (1 <? LEVERAGE cfg)%float
  then [(LEVERAGE cfg, symbol)] else [].
Proof.
  unfold setLeverageIfNeeded.
  rewrite <- !orb_assoc, falsy_or_at_most_one.
  destruct (String.eqb (EXCHANGE_TYPE cfg) "swap"); [|reflexivity].
  destruct (USE_LEVERAGE_FOR_SWAPS cfg); [|reflexivity].
  destruct (1 <? LEVERAGE cfg)%float; destruct setLeverage; reflexivity.
Qed.

(** ** The sizers *)

Section SizerMore.

Variable parseFloat : string -> float.

Lemma truthyOptNum_Some v p :
  (if Js.truthyOptNum v then v else None) = Some p -> Js.truthyNum p = true.
Proof.
  destruct v as [x|]; cbn; [|discriminate].
  destruct (Js.truthyNum x) eqn:E; [|discriminate]. now intros [= <-].
Qed.

Lemma priceOf_truthy t p : priceOf t = Some p -> Js.truthyNum p = true.
Proof. destruct t; cbn; [apply truthyOptNum_Some | discriminate]. Qed.

Lemma truthyNum_not_NaN x : Js.truthyNum x = true -> Js.isNaN x = false.
Proof.
  unfold Js.truthyNum, Js.isNaN. intros H. apply andb_true_iff in H as [_ H].
  now rewrite H.
Qed.

Lemma freeOf_not_NaN bal asset : Js.isNaN (freeOf bal asset) = false.
Proof.
  unfold freeOf. destruct (bal !! _) as [e|]; [|reflexivity].
  destruct (Js.orElse _ _) as [x|]; cbn; [|reflexivity].
  destruct (Js.truthyNum x) eqn:E; [|reflexivity].
  now apply truthyNum_not_NaN.
Qed.

Lemma computeAllInAmounts_Ok_inv cfg ex marketSymbol r :
  computeAllInAmounts parseFloat cfg ex marketSymbol = Ok r ->
  exists bal p,
    fetchBalance ex = Ok bal /\
    priceOf (fetchTicker ex (mapToMarketKey ex marketSymbol)) = Some p.
Proof.
  unfold computeAllInAmounts. destruct (baseQuoteOf _ _) as [b q].
  destruct (fetchBalance ex) as [bal|e]; [|discriminate].
  destruct (priceOf _) as [p|]; [|discriminate]. eauto.
Qed.

Lemma mapToMarketKey_cases ex s :
  mapToMarketKey ex s = s \/
  (inMarkets ex s = false /\
   exists k, find (reconciles s) (marketKeys ex) = Some k /\ k <> "" /\
             mapToMarketKey ex s = k).
Proof.
  unfold mapToMarketKey. destruct (markets ex); [|now left].
  destruct (inMarkets ex s); [now left|]. cbn [negb].
  destruct (find _ _) as [k|]; [|now left]. cbn.
  destruct k as [|c k]; [now left|]. right. split; [reflexivity|].
  exists (String c k). repeat split. discriminate.
Qed.

Lemma inMarkets_In ex k : inMarkets ex k = true <-> In k (marketKeys ex).
Proof.
  unfold inMarkets. rewrite existsb_exists. split.
  - intros (x & Hx & E). apply String.eqb_eq in E. now subst.
  - intros H. exists k. split; [assumption | apply String.eqb_refl].
Qed.

Lemma marketAt_inMarkets ex k : inMarkets ex k = true -> marketAt ex k <> None.
Proof.
  unfold inMarkets, marketKeys, marketAt.
  induction (default [] (markets ex)) as [|[k' m] l IH]; [discriminate|].
  cbn. rewrite (String.eqb_sym k k').
  destruct (String.eqb k' k); [discriminate | exact IH].
Qed.

End SizerMore.

(** X3: for an upper-case symbol, the market resolution (lines 131-140)
    leaves a symbol that is a market key alone, and otherwise changes it
    only into a non-empty market key that the reconciliation accepts, the
    first such key in [Object.keys] order; the market of a changed symbol
    is always found. *)
Theorem mapToMarketKey_resolves ex s :
  Js.toUpperCase s = s ->
  let k := mapToMarketKey ex s in
  (inMarkets ex s = true -> k = s) /\
  (k <> s ->
   inMarkets ex s = false /\ find (reconciles s) (marketKeys ex) = Some k /\
   k <> "" /\ reconciles s k = true /\
   inMarkets ex k = true /\ marketAt ex k <> None).
Proof.
  intros _ k. split.
  - intros Hin. unfold k, mapToMarketKey.
    destruct (markets ex); [|reflexivity]. now rewrite Hin.
  - intros Hne. destruct (mapToMarketKey_cases ex s)
      as [E | (Hin & k' & Hfind & Hk' & E)]; [now elim Hne|].
    fold k in E. subst k'.
    pose proof (find_some _ _ Hfind) as [HIn Hrec].
    assert (inMarkets ex k = true) by now apply inMarkets_In.
    repeat split; auto using marketAt_inMarkets.
Qed.

Lemma mapToMarketKey_resolves_witness :
  mapToMarketKey (Scenario.exchange 1000 (Ok 50000%float)) "BTCUSDT" = "BTC/USDT" /\
  marketAt (Scenario.exchange 1000 (Ok 50000%float)) "BTC/USDT" <> None.
Proof.
  split; [reflexivity|].
  apply (mapToMarketKey_resolves (Scenario.exchange 1000 (Ok 50000%float))
           "BTCUSDT" eq_refl).
  discriminate.
Defined.

(** What the reconciliation of line 138 accepts for "BTC/USDT": the key
    without the slash and the key with a dash, but not the key with a
    settlement suffix. *)
Example reconciles_examples :
  reconciles "BTC/USDT" "BTCUSDT" = true /\
  reconciles "BTC/USDT" "BTC-USDT" = true /\
  reconciles "BTC/USDT" "BTC/USDT:USDT" = false.
Proof. repeat split. Qed.

(** X4: for an upper-case symbol, a result of the sizer never carries a
    zero or NaN price, nor a NaN free balance; its price is the ticker's
    [last], else [close],
    else [bid], the first of them that is neither missing, zero nor NaN;
    and the sizer returns exactly when the balance fetch succeeds and
    such a price exists: a rejected balance fetch is thrown on as it is,
    before the ticker is looked at. *)
Theorem sizer_returns_iff parseFloat cfg ex marketSymbol :
  Js.toUpperCase marketSymbol = marketSymbol ->
  let symbol := mapToMarketKey ex marketSymbol in
  ((exists r, computeAllInAmounts parseFloat cfg ex marketSymbol = Ok r) <->
   (exists bal, fetchBalance ex = Ok bal) /\
   (exists p, priceOf (fetchTicker ex symbol) = Some p)) /\
  (forall e, fetchBalance ex = Throw e ->
             computeAllInAmounts parseFloat cfg ex marketSymbol = Throw e) /\
  (forall r, computeAllInAmounts parseFloat cfg ex marketSymbol = Ok r ->
     Js.truthyNum (price r) = true /\
     Js.isNaN (freeQuote r) = false /\ Js.isNaN (freeBase r) = false /\
     forall t, fetchTicker ex symbol = Ok t ->
       Some (price r) =
       if Js.truthyOptNum (Ticker.last t) then Ticker.last t
       else if Js.truthyOptNum (Ticker.close t) then Ticker.close t
       else Ticker.bid t).
Proof.
  intros _ symbol. split; [|split].
  - split.
    + intros [r Hr].
      destruct (computeAllInAmounts_Ok_inv parseFloat cfg ex _ r Hr)
        as (bal & p & Hb & Hp). eauto.
    + intros [[bal Hb] [p Hp]]. eexists.
      apply (computeAllInAmounts_ok parseFloat cfg ex _ bal p Hb Hp).
  - intros e He. unfold computeAllInAmounts.
    destruct (baseQuoteOf _ _). now rewrite He.
  - intros r Hr.
    destruct (computeAllInAmounts_Ok_inv parseFloat cfg ex _ r Hr)
      as (bal & p & Hb & Hp).
    rewrite (computeAllInAmounts_ok parseFloat cfg ex _ bal p Hb Hp) in Hr.
    injection Hr as <-. cbn [price freeQuote freeBase].
    split; [now apply (priceOf_truthy _ _ Hp)|].
    split; [apply freeOf_not_NaN|]. split; [apply freeOf_not_NaN|].
    intros t Ht. fold symbol in Hp. rewrite Ht in Hp. cbn in Hp.
    unfold Js.orElse in Hp.
    destruct (Js.truthyOptNum (Ticker.last t)) eqn:E1;
      rewrite ?E1 in Hp; [now rewrite ?E1 in Hp|].
    destruct (Js.truthyOptNum (Ticker.close t)) eqn:E2;
      rewrite ?E2 in Hp; [now rewrite ?E2 in Hp|].
    now destruct (Js.truthyOptNum (Ticker.bid t)).
Qed.

Lemma sizer_returns_iff_witness :
  exists r,
    computeAllInAmounts Scenario.toyParseFloat (Scenario.config 1.0 "")
      (Scenario.exchange 1000 (Ok 50000%float)) "BTC/USDT" = Ok r /\
    Js.truthyNum (price r) = true.
Proof.
  destruct (sizer_returns_iff Scenario.toyParseFloat (Scenario.config 1.0 "")
              (Scenario.exchange 1000 (Ok 50000%float)) "BTC/USDT" eq_refl)
    as ([_ Hreturns] & _ & Hinv).
  destruct Hreturns as [r Hr]; [split; eexists; reflexivity|].
  exists r. split; [exact Hr|]. now apply Hinv.
Defined.

(** X5: for an upper-case symbol and with leverage off (the exchange type
    is not "swap" or leverage is disabled) the enhanced sizer returns
    what the "LIVE" sizer returns, except that its two amounts have gone
    through the minimum check of
    the resolved market; it throws when, and what, the "LIVE" sizer
    throws. *)
Theorem enhanced_sizer_extends_live parseFloat cfg ex marketSymbol :
  Js.toUpperCase marketSymbol = marketSymbol ->
  String.eqb (EXCHANGE_TYPE cfg) "swap" && USE_LEVERAGE_FOR_SWAPS cfg = false ->
  computeAllInAmounts parseFloat cfg ex marketSymbol =
  match Live.computeAllInAmounts parseFloat cfg ex marketSymbol with
  | Throw e => Throw e
  | Ok r =>
      let checked :=
        enforceMinimum (marketAt ex (mapToMarketKey ex marketSymbol))
          (buyAmount r) (sellAmount r) in
      Ok {| symbol := symbol r; base := base r; quote := quote r;
            price := price r;
            buyAmount := fst checked; sellAmount := snd checked;
            freeQuote := freeQuote r; freeBase := freeBase r;
            rawBuyAmount := rawBuyAmount r; rawSellAmount := rawSellAmount r |}
  end.
Proof.
  intros _ Hoff. unfold computeAllInAmounts, Live.computeAllInAmounts.
  destruct (baseQuoteOf _ _) as [b q].
  destruct (fetchBalance ex) as [bal|e]; [|reflexivity].
  destruct (priceOf _) as [p|]; [|reflexivity].
  unfold rawBuyOf. rewrite Hoff.
  destruct (roundToPrecision _ _ _ _ _) as [[rb rs] sy]. cbv zeta.
  cbn [symbol base quote price buyAmount sellAmount freeQuote freeBase
       rawBuyAmount rawSellAmount].
  now destruct (enforceMinimum _ rb rs).
Qed.

Lemma enhanced_sizer_extends_live_witness :
  exists live r,
    Live.computeAllInAmounts Scenario.toyParseFloat (Scenario.config 1.0 "")
      (Scenario.exchange 25 (Ok 50000%float)) "BTC/USDT" = Ok live /\
    computeAllInAmounts Scenario.toyParseFloat (Scenario.config 1.0 "")
      (Scenario.exchange 25 (Ok 50000%float)) "BTC/USDT" = Ok r /\
    buyAmount live = 0.0005%float /\ buyAmount r = 0%float.
Proof.
  eexists. eexists. split; [vm_compute; reflexivity|]. split.
  - rewrite (enhanced_sizer_extends_live Scenario.toyParseFloat
               (Scenario.config 1.0 "") (Scenario.exchange 25 (Ok 50000%float))
               "BTC/USDT" eq_refl eq_refl).
    vm_compute. reflexivity.
  - split; reflexivity.
Defined.

(** ** More on the duplicate guard *)

Section DuplicateMore.

(** A call at a time within the window of an entry leaves that entry as
    it is, whatever the key of the call. *)
Lemma isDuplicate_keeps_entry key now (m : gmap string Z) k t0 :
  m !! k = Some t0 -> (now - t0 <= DUP_TTL_MS)%Z ->
  snd (isDuplicate key now m) !! k = Some t0.
Proof.
  intros Hk Hle.
  assert (Hlive : purgeOld now m !! k = Some t0)
    by (apply purgeOld_lookup; split; assumption).
  unfold isDuplicate. destruct (purgeOld now m !! key) as [t|] eqn:E.
  - exact Hlive.
  - cbn [snd]. rewrite lookup_insert_ne; [exact Hlive|]. intros ->. congruence.
Qed.

Lemma isDuplicateRun_cons key now rest m :
  isDuplicateRun ((key, now) :: rest) m =
  (fst (isDuplicate key now m) :: fst (isDuplicateRun rest (snd (isDuplicate key now m))),
   snd (isDuplicateRun rest (snd (isDuplicate key now m)))).
Proof.
  cbn [isDuplicateRun]. destruct (isDuplicate key now m) as [d m1].
  cbn [fst snd]. now destruct (isDuplicateRun rest m1).
Qed.

Lemma isDuplicateRun_keeps_entry calls : forall (m : gmap string Z) k t0,
  m !! k = Some t0 ->
  Forall (fun c => (snd c - t0 <= DUP_TTL_MS)%Z) calls ->
  snd (isDuplicateRun calls m) !! k = Some t0 /\
  (forall i now, calls !! i = Some (k, now) ->
                 fst (isDuplicateRun calls m) !! i = Some true).
Proof.
  induction calls as [|[key now] rest IH]; intros m k t0 Hk Hall.
  - split; [exact Hk|]. intros i now Hi. destruct i; discriminate Hi.
  - inversion Hall as [|c l Hc Hrest]; subst. cbn [snd] in Hc.
    rewrite isDuplicateRun_cons. cbn [fst snd].
    pose proof (isDuplicate_keeps_entry key now m k t0 Hk Hc) as Hk1.
    destruct (IH _ k t0 Hk1 Hrest) as [Hend Hdups].
    split; [exact Hend|].
    intros [|i] now' Hi.
    + cbn in Hi. injection Hi as -> ->. cbn.
      rewrite isDuplicate_seen; [reflexivity|].
      exists t0. apply purgeOld_lookup. split; assumption.
    + cbn in Hi |- *. now apply (Hdups i now').
Qed.

End DuplicateMore.

(** X6: after any call of [isDuplicate] at time [now] the map holds the
    key of the call and no entry older than 30 s: an entry is there
    exactly when it was there before and is at most 30 s old, with its
    time unchanged, or it is the key just recorded. *)
Theorem duplicate_map_holds_fresh_entries key now (m : gmap string Z) :
  let m' := snd (isDuplicate key now m) in
  is_Some (m' !! key) /\
  (forall k t, m' !! k = Some t -> (now - t <= 30000)%Z) /\
  (forall k t, k <> key ->
     (m' !! k = Some t <-> m !! k = Some t /\ (now - t <= 30000)%Z)) /\
  (forall t, m !! key = Some t -> (now - t <= 30000)%Z -> m' !! key = Some t).
Proof.
  intros m'. unfold m', isDuplicate.
  destruct (purgeOld now m !! key) as [t0|] eqn:E; cbn [snd].
  - split; [now exists t0|]. split; [|split].
    + intros k t Hk. now apply purgeOld_lookup in Hk as [_ Hk].
    + intros k t _. apply purgeOld_lookup.
    + intros t Ht Hle. apply purgeOld_lookup. now split.
  - split; [exists now; apply lookup_insert_eq|]. split; [|split].
    + intros k t Hk. destruct (decide (k = key)) as [->|Hne].
      * rewrite lookup_insert_eq in Hk. injection Hk as <-. lia.
      * rewrite lookup_insert_ne in Hk by congruence.
        now apply purgeOld_lookup in Hk as [_ Hk].
    + intros k t Hne. rewrite lookup_insert_ne by congruence.
      apply purgeOld_lookup.
    + intros t Ht Hle.
      assert (purgeOld now m !! key = Some t)
        by (apply purgeOld_lookup; now split).
      congruence.
Qed.

(** X7: repeats do not extend the window.  Once a key is taken as new at
    [t0], every call for it among any calls made no later than 30 s after
    [t0] is answered as a duplicate and leaves its entry at [t0]; so the
    next call for it later than 30 s after [t0] is taken as new again,
    however recent the last duplicate was. *)
Theorem duplicate_window_is_not_extended key t0 (m : gmap string Z) calls now :
  fst (isDuplicate key t0 m) = false ->
  Forall (fun c => (snd c - t0 <= 30000)%Z) calls ->
  let run := isDuplicateRun calls (snd (isDuplicate key t0 m)) in
  snd run !! key = Some t0 /\
  (forall i t, calls !! i = Some (key, t) -> fst run !! i = Some true) /\
  ((now - t0 > 30000)%Z -> fst (isDuplicate key now (snd run)) = false).
Proof.
  intros Hnew Hall run.
  assert (Hk : snd (isDuplicate key t0 m) !! key = Some t0).
  { rewrite (isDuplicate_false _ _ _ Hnew). apply lookup_insert_eq. }
  destruct (isDuplicateRun_keeps_entry calls _ key t0 Hk Hall) as [Hend Hdups].
  fold run in Hend, Hdups.
  split; [exact Hend|]. split; [exact Hdups|].
  intros Hgt. unfold isDuplicate.
  replace (purgeOld now (snd run) !! key) with (@None Z); [reflexivity|].
  symmetry. apply purgeOld_lookup_None. intros t Ht.
  rewrite Hend in Ht. injection Ht as <-. exact Hgt.
Qed.

Lemma duplicate_window_is_not_extended_witness :
  fst (isDuplicate "k" 31000
         (snd (isDuplicateRun [("k", 10000%Z); ("other", 20000%Z); ("k", 29000%Z)]
                 (snd (isDuplicate "k" 0 ∅))))) = false.
Proof.
  apply (duplicate_window_is_not_extended "k" 0%Z ∅
           [("k", 10000%Z); ("other", 20000%Z); ("k", 29000%Z)] 31000%Z).
  - vm_compute. reflexivity.
  - repeat constructor; cbn; lia.
  - lia.
Defined.

(** ** More on symbol normalisation *)

Section NormalisationMore.

Lemma canonical_empty_iff t : canonical t = "" <-> t = "".
Proof.
  split; [|now intros ->].
  intros H. destruct t; [reflexivity|].
  exfalso. apply (canonical_nonempty (String a t)); [discriminate | exact H].
Qed.

Lemma length_canonical t :
  (String.length (canonical t) <= S (String.length t))%nat.
Proof.
  unfold canonical. cbv zeta. unfold Js.toUpperCase. rewrite length_mapChars.
  destruct (_ && _); rewrite ?length_insertSlash, !length_replace; lia.
Qed.

Lemma length_trimStart s : (String.length (Js.trimStart s) <= String.length s)%nat.
Proof.
  induction s; simpl; [lia|]. destruct (Js.isWhiteSpace a); simpl; lia.
Qed.

Lemma length_trimEnd s : (String.length (Js.trimEnd s) <= String.length s)%nat.
Proof.
  induction s; simpl; [lia|].
  destruct (Js.isWhiteSpace a && Js.isEmpty (Js.trimEnd s)); simpl; lia.
Qed.

Lemma length_trim s : (String.length (Js.trim s) <= String.length s)%nat.
Proof.
  unfold Js.trim. pose proof (length_trimEnd (Js.trimStart s)).
  pose proof (length_trimStart s). lia.
Qed.

Lemma count_zero_of_pred n : n = Nat.pred n -> n = 0%nat.
Proof. destruct n; simpl; lia. Qed.

End NormalisationMore.

(** X8: [normalizeSymbol] returns null exactly on a null or empty
    argument; on an ASCII string it returns the empty string exactly
    when the string is not empty and all whitespace; and what it returns
    has no whitespace at either end and is at most one character longer
    than its argument. *)
Theorem normalizeSymbol_null_and_blank :
  (forall o, normalizeSymbol o = None <-> o = None \/ o = Some "") /\
  (forall s, Js.isAscii s = true ->
     (normalizeSymbol (Some s) = Some "" <-> s <> "" /\ Js.trim s = "")) /\
  (forall s r, Js.isAscii s = true -> normalizeSymbol (Some s) = Some r ->
     Js.trim r = r /\ (String.length r <= S (String.length s))%nat).
Proof.
  split; [|split].
  - intros [[|c s]|]; cbn; split; try discriminate; auto.
    + intros [H|H]; discriminate H.
  - intros s _. split.
    + intros H. destruct s as [|c s]; [discriminate H|].
      split; [discriminate|].
      rewrite normalizeSymbol_Some in H by discriminate.
      injection H as H. now apply canonical_empty_iff.
    + intros [Hs Ht]. rewrite (normalizeSymbol_Some s Hs), Ht. reflexivity.
  - intros s r _ H. destruct s as [|c s]; [discriminate H|].
    rewrite normalizeSymbol_Some in H by discriminate. injection H as <-.
    destruct (canonical_trimmed (Js.trim (String c s))
                (headOk_trim _) (lastOk_trim _)) as [Hh Hl].
    split; [now apply trim_fix|].
    pose proof (length_canonical (Js.trim (String c s))).
    pose proof (length_trim (String c s)). lia.
Qed.

(** X9: the ASCII strings that [normalizeSymbol] returns unchanged are
    exactly the non-empty upper-case strings with no whitespace at either
    end and no dash or underscore that contain a slash or are shorter
    than six characters; so the default symbol "BTC/USDT:USDT" and every
    symbol already normalised pass through as they are. *)
Theorem normalizeSymbol_fixed_points (s : string) :
  Js.isAscii s = true ->
  (normalizeSymbol (Some s) = Some s <->
   s <> "" /\ Js.trim s = s /\ Js.toUpperCase s = s /\
   Js.count "-" s = 0%nat /\ Js.count "_" s = 0%nat /\
   (Js.includes "/" s = true \/ (String.length s < 6)%nat)).
Proof.
  intros _. split.
  - intros H. destruct s as [|c s]; [discriminate H|].
    set (x := String c s) in *.
    rewrite normalizeSymbol_Some in H by discriminate. injection H as H.
    destruct (canonical_trimmed (Js.trim x) (headOk_trim _) (lastOk_trim _))
      as [Hh Hl].
    rewrite H in Hh, Hl.
    destruct (canonical_counts (Js.trim x)) as (Cd & Cu & _).
    rewrite H in Cd, Cu.
    rewrite count_trim in Cd, Cu by (unfold isSep; auto).
    pose proof (canonical_upper (Js.trim x)) as Hup. rewrite H in Hup.
    pose proof (canonical_short (Js.trim x)) as Hshort. rewrite H in Hshort.
    split; [discriminate|]. split; [now apply trim_fix|].
    split; [exact Hup|].
    split; [now apply count_zero_of_pred|].
    split; [now apply count_zero_of_pred|].
    destruct (Js.includes "/" x) eqn:E; [now left|]. right. now apply Hshort.
  - intros (Hne & Ht & Hup & Hd & Hu & Hslash).
    rewrite (normalizeSymbol_Some s Hne), Ht. f_equal.
    apply canonical_fixed; try assumption.
    intros E. destruct Hslash as [Hin|Hlen]; [congruence | exact Hlen].
Qed.

Lemma normalizeSymbol_fixed_points_witness :
  normalizeSymbol (Some "BTC/USDT:USDT") = Some "BTC/USDT:USDT".
Proof.
  apply (normalizeSymbol_fixed_points "BTC/USDT:USDT" eq_refl).
  repeat split; try reflexivity; try discriminate. now left.
Defined.

(** ** More on the webhook handler *)

Section HandlerMore.

Variable parseFloat : string -> float.
Variable JSON_parse : string -> Result (option Payload.t).


Lemma guard_Reply_inv stop r r' :
  guard stop r = Reply r' -> r' = r.
Proof. unfold guard. destruct stop; [now intros [= <-] | discriminate]. Qed.

Lemma parsePayload_Reply_inv cfg req rawText r :
  parsePayload JSON_parse cfg req rawText = Reply r ->
  status r = 400%Z /\ isRefusal (json r) = true.
Proof.
  unfold parsePayload.
  destruct (isJson req), (body req); try discriminate;
    destruct (JSON_parse _); try discriminate;
    unfold guard;
    destruct (length _ =? 0)%nat; cbn [bindFlow];
    try (intros [= <-]; split; reflexivity);
    destruct (negb _ && negb _); cbn [bindFlow];
    try (intros [= <-]; split; reflexivity); discriminate.
Qed.

Lemma decideOrder_Reply_inv cfg ex req rawText r :
  decideOrder parseFloat JSON_parse cfg ex req rawText = Reply r ->
  (status r = 400%Z \/ status r = 500%Z) /\ isRefusal (json r) = true.
Proof.
  unfold decideOrder.
  destruct (parsePayload JSON_parse cfg req rawText) as [[payload|]|r0|e] eqn:Hp;
    cbn [bindFlow]; try discriminate.
  2: { intros [= <-]. destruct (parsePayload_Reply_inv _ _ _ _ Hp). auto. }
  cbv zeta. unfold guard.
  destruct (Js.isEmpty _ || _); cbn [bindFlow];
    [intros [= <-]; split; [now left | reflexivity]|].
  destruct (negb (Js.truthyStr _)); cbn [bindFlow];
    [intros [= <-]; split; [now left | reflexivity]|].
  destruct (computeAllInAmounts _ _ _ _) as [amounts|e];
    cbn [awaitFlow bindFlow]; [|discriminate].
  destruct (Js.isEmpty (API_KEY cfg) || Js.isEmpty (API_SECRET cfg));
    cbn [bindFlow]; [intros [= <-]; split; [now right | reflexivity]|].
  destruct (marketAt ex (symbol amounts)) as [mk|]; cbn [bindFlow].
  1: destruct (String.eqb (EXCHANGE_TYPE cfg) "swap" && _); cbn [bindFlow];
       [intros [= <-]; split; [now left | reflexivity]|].
  all: destruct (String.eqb _ "buy");
    destruct (Js.isNaN _ || _); cbn [bindFlow];
    try discriminate; intros [= <-]; split; (now left) || reflexivity.
Qed.

End HandlerMore.

Section WebhookMore.

Variable parseFloat : string -> float.
Variable JSON_stringify : Payload.t -> string.
Variable JSON_parse : string -> Result (option Payload.t).
Variable sha256hex : string -> string.
Variable hmacSha256hex : string -> string -> string.

Lemma verifySignature_Reply_inv cfg req rawText r :
  verifySignature hmacSha256hex cfg req rawText = Reply r ->
  status r = 401%Z /\ isRefusal (json r) = true.
Proof.
  unfold verifySignature. destruct (negb _); [|discriminate].
  cbv zeta. unfold guard.
  destruct (Js.isEmpty _); cbn [bindFlow]; [intros [= <-]; now split|].
  destruct (timingSafeEqual _ _) as [same|e]; cbn [awaitFlow bindFlow];
    [|discriminate].
  destruct same; cbn [negb]; [discriminate | intros [= <-]; now split].
Qed.

End WebhookMore.


(** X11: the enhanced handler answers 200, 400, 401 or 500 and nothing
    else.  It answers 200 only for a duplicate (no order sent) or with
    the record of the one order it sent; 401 only from the signature check,
    before anything is recorded; 400 and 500 with an error body and no
    order sent, except 500 "order_failed" for the one order the gateway
    rejected. *)
Theorem webhook_status_codes
    parseFloat JSON_stringify JSON_parse sha256hex hmacSha256hex
    cfg ex req now m :
  let out := webhook parseFloat JSON_stringify JSON_parse sha256hex hmacSha256hex
               cfg ex req now m in
  let st := status (response out) in
  let body := json (response out) in
  (st = 200%Z /\
   (body = DuplicateJson /\ orders out = [] \/
    exists side order, body = OrderJson side order /\ length (orders out) = 1%nat)) \/
  (st = 400%Z /\ isRefusal body = true /\ orders out = []) \/
  (st = 401%Z /\ isRefusal body = true /\ orders out = [] /\
   recentPayloads' out = m) \/
  (st = 500%Z /\
   (isRefusal body = true /\ orders out = [] \/
    exists detail, body = OrderFailedJson detail /\ length (orders out) = 1%nat)).
Proof.
  intros out st body. unfold st, body, out, webhook.
  destruct (verifySignature _ _ _ _) as [[]|r|e] eqn:Hv.
  - destruct (isDuplicate _ _ _) as [[] m1].
    + left. split; [reflexivity|]. left. now split.
    + unfold processSignal.
      destruct (decideOrder _ _ _ _ _ _) as [[[sym side] qty]|r|e] eqn:Hd.
      * destruct (createMarketOrder ex sym side qty) as [order|e].
        -- left. split; [reflexivity|]. right. now exists side, order.
        -- right. right. right. split; [reflexivity|]. right. now exists e.
      * destruct (decideOrder_Reply_inv _ _ _ _ _ _ _ Hd) as [[H4|H5] Hr].
        -- right. left. cbn. now repeat split.
        -- right. right. right. cbn. split; [assumption|]. left. now split.
      * right. right. right. split; [reflexivity|]. left. now split.
  - destruct (verifySignature_Reply_inv _ _ _ _ _ Hv) as [H1 Hr].
    right. right. left. cbn. now repeat split.
  - right. right. right. split; [reflexivity|]. left. now split.
Qed.

Section PayloadMore.

Variable parseFloat : string -> float.
Variable JSON_parse : string -> Result (option Payload.t).




End PayloadMore.



(** A text signal and a JSON signal with the same symbol can part ways:
    "eth-usdt-x" becomes "ETH/USDT/X" in the text signal (quote USDT, an
    order is sent) and "ETH/USDT-X" in the JSON signal (quote "USDT-X",
    no balance, refused). *)
Example text_and_json_symbols_differ :
  let run req raw :=
    processSignal Scenario.toyParseFloat Scenario.toyParse (Scenario.config 1.0 "")
      (Scenario.exchange 1000 (Ok 50000%float)) req raw in
  snd (run (Scenario.textRequest "buy eth-usdt-x" ∅) "buy eth-usdt-x")
  = [("ETH/USDT/X", "buy", 0.02%float)] /\
  run {| body := BodyObject {| Payload.action := Some "buy";
                               Payload.symbol := Some "eth-usdt-x" |};
         isJson := true; headers := ∅ |} "{}"
  = ({| status := 400; json := TooSmallJson "Computed buy size too small" 0 |}, []).
Proof. split; vm_compute; reflexivity. Qed.

Section SymbolGuard.

Variable parseFloat : string -> float.
Variable JSON_parse : string -> Result (option Payload.t).



End SymbolGuard.



(** ** The long-only server *)

Section LongOnlyFacts.

Variable parseFloat : string -> float.
Variable JSON_parse : string -> Result (option Payload.t).

Lemma truthy_candidates (l : list (option float)) :
  Forall (fun r => Js.truthyNum r = true)
    (omap (fun v => if Js.truthyOptNum v then v else None) l).
Proof.
  induction l as [|[x|] l IH]; cbn; [constructor| |exact IH].
  destruct (Js.truthyNum x) eqn:E; [now constructor | exact IH].
Qed.

Lemma sizeCandidates_head_truthy p raw l :
  LongOnlyServer.sizeCandidates p = raw :: l -> Js.truthyNum raw = true.
Proof.
  intros E. pose proof (truthy_candidates
    [LongOnlyServer.contracts p; LongOnlyServer.size p; LongOnlyServer.amount p;
     LongOnlyServer.positionAmt p; LongOnlyServer.position_size p;
     LongOnlyServer.position p]) as H.
  unfold LongOnlyServer.sizeCandidates in E. rewrite E in H.
  now inversion H.
Qed.

Lemma firstLong_cons p rest :
  LongOnlyServer.firstLong (p :: rest) =
  match hd_error (LongOnlyServer.sizeCandidates p) with
  | Some raw => if (0 <? raw)%float then Some raw
                else LongOnlyServer.firstLong rest
  | None => LongOnlyServer.firstLong rest
  end.
Proof.
  cbn [LongOnlyServer.firstLong].
  destruct (LongOnlyServer.sizeCandidates p) as [|raw l] eqn:E; [reflexivity|].
  cbn [hd_error].
  rewrite (truthyNum_not_NaN _ (sizeCandidates_head_truthy _ _ _ E)).
  reflexivity.
Qed.

Lemma placeMarketOrder_shape cfg ex symbol side amount extra :
  exists params,
    LongOnlyServer.reduceOnly params = LongOnlyServer.reduceOnly extra /\
    (params = extra \/
     (LongOnlyServer.EXCHANGE_ID cfg = "bitget" /\
      LongOnlyServer.EXCHANGE_TYPE cfg = "swap" /\
      LongOnlyServer.orderType params = Some "market" /\
      LongOnlyServer.type params = Some "market")) /\
    let first := LongOnlyServer.CreateMarketOrder symbol side amount params in
    let second :=
      LongOnlyServer.CreateOrder symbol "market" side amount params in
    let fallback := LongOnlyServer.createOrder ex symbol "market" side amount params in
    match LongOnlyServer.createMarketOrder ex with
    | Some create =>
        match create symbol side amount params with
        | Ok order =>
            LongOnlyServer.placeMarketOrder cfg ex symbol side amount extra
            = (Ok order, [first])
        | Throw _ =>
            LongOnlyServer.placeMarketOrder cfg ex symbol side amount extra
            = (fallback, [first; second])
        end
    | None =>
        LongOnlyServer.placeMarketOrder cfg ex symbol side amount extra
        = (fallback, [second])
    end.
Proof.
  unfold LongOnlyServer.placeMarketOrder.
  set (params := if _ && _ then _ else extra).
  exists params. split; [|split].
  - subst params. now destruct (_ && _).
  - subst params.
    destruct (String.eqb (LongOnlyServer.EXCHANGE_ID cfg) "bitget") eqn:E1;
      [|now left].
    destruct (String.eqb (LongOnlyServer.EXCHANGE_TYPE cfg) "swap") eqn:E2;
      [|now left].
    right. apply String.eqb_eq in E1, E2. now repeat split.
  - cbv zeta. destruct (LongOnlyServer.createMarketOrder ex) as [create|];
      [|reflexivity].
    now destruct (create symbol side amount params).
Qed.



Lemma long_decideOrder_Next_inv cfg ex req symbol side qty extra :
  LongOnlyServer.decideOrder parseFloat JSON_parse cfg ex req
  = Next (symbol, side, qty, extra) ->
  symbol <> "" /\
  LongOnlyServer.tooSmall cfg qty = false /\
  ((side = "buy" /\ extra = LongOnlyServer.noParams /\
    exists price freeQuote,
      LongOnlyServer.computeBuyAmount parseFloat ex symbol
      = Ok (qty, price, freeQuote)) \/
   (side = "sell" /\
    extra = (if String.eqb (LongOnlyServer.EXCHANGE_TYPE cfg) "swap"
             then {| LongOnlyServer.reduceOnly := Some true;
                     LongOnlyServer.orderType := None;
                     LongOnlyServer.type := None |}
             else LongOnlyServer.noParams) /\
    exists info,
      LongOnlyServer.computeSellAmount parseFloat ex symbol = Ok info /\
      qty = LongOnlyServer.sellQty info)).
Proof.
  unfold LongOnlyServer.decideOrder.
  destruct (LongOnlyServer.parsePayload JSON_parse cfg req) as [[payload|]|r0|e] eqn:Hp;
    cbn [bindFlow]; try discriminate.
  cbv zeta. unfold guard.
  destruct (Js.isEmpty _ || _); cbn [bindFlow]; [discriminate|].
  set (sym := LongOnly.normalizeSymbol _ _).
  destruct (Js.truthyStr sym) eqn:Hsym; cbn [negb bindFlow]; [|discriminate].
  assert (Hne : default "" sym <> "").
  { destruct sym as [s|]; [|discriminate Hsym]. cbn in Hsym |- *.
    apply negb_true_iff in Hsym. now apply isEmpty_false_iff. }
  destruct (String.eqb _ "buy").
  - destruct (LongOnlyServer.computeBuyAmount _ _ _) as [[[q p] f]|e] eqn:Hb;
      cbn [awaitFlow bindFlow fst]; [|discriminate].
    destruct (LongOnlyServer.tooSmall _ _) eqn:Hs; cbn [bindFlow]; [discriminate|].
    intros [= <- <- <- <-]. split; [exact Hne|]. split; [exact Hs|].
    left. split; [reflexivity|]. split; [reflexivity|]. now exists p, f.
  - destruct (LongOnlyServer.computeSellAmount _ _ _) as [info|e] eqn:Hb;
      cbn [awaitFlow bindFlow]; [|discriminate].
    destruct (LongOnlyServer.tooSmall _ _) eqn:Hs; cbn [bindFlow]; [discriminate|].
    intros [= <- <- <- <-]. split; [exact Hne|]. split; [exact Hs|].
    right. split; [reflexivity|]. split; [reflexivity|]. now exists info.
Qed.


End LongOnlyFacts.

(** X14: [placeMarketOrder] sends one or two requests, all for the same
    symbol, side, amount and parameters and all market orders; the
    parameters keep the caller's [reduceOnly]; the second request is
    [createOrder], sent exactly when the client has [createMarketOrder]
    and that call failed, whatever the failure was; and the function
    fails only with the failure of [createOrder]. *)
Theorem placeMarketOrder_requests cfg ex symbol side amount extra :
  let res := fst (LongOnlyServer.placeMarketOrder cfg ex symbol side amount extra) in
  let calls := snd (LongOnlyServer.placeMarketOrder cfg ex symbol side amount extra) in
  (1 <= length calls <= 2)%nat /\
  (exists params,
     LongOnlyServer.reduceOnly params = LongOnlyServer.reduceOnly extra /\
     Forall (fun c =>
       LongOnlyServer.callSymbol c = symbol /\
       LongOnlyServer.callSide c = side /\
       LongOnlyServer.callAmount c = amount /\
       LongOnlyServer.callType c = "market" /\
       LongOnlyServer.callParams c = params) calls /\
     (length calls = 2%nat <->
      exists create e,
        LongOnlyServer.createMarketOrder ex = Some create /\
        create symbol side amount params = Throw e) /\
     (forall e, res = Throw e ->
        LongOnlyServer.createOrder ex symbol "market" side amount params = Throw e /\
        last calls = Some (LongOnlyServer.CreateOrder symbol "market" side amount params))).
Proof.
  cbv zeta.
  destruct (placeMarketOrder_shape cfg ex symbol side amount extra)
    as (params & Hr & _ & H). cbv zeta in H.
  destruct (LongOnlyServer.createMarketOrder ex) as [create|] eqn:Hc.
  - destruct (create symbol side amount params) as [order|e0] eqn:Hcall;
      rewrite H; cbn [fst snd length].
    + split; [lia|]. exists params. split; [exact Hr|]. split.
      { repeat constructor. }
      split.
      * split; [discriminate|]. intros (c & e & [= <-] & He). congruence.
      * discriminate.
    + split; [lia|]. exists params. split; [exact Hr|]. split.
      { repeat constructor. }
      split.
      * split; [|reflexivity]. intros _. now exists create, e0.
      * intros e He. now split.
  - rewrite H; cbn [fst snd length].
    split; [lia|]. exists params. split; [exact Hr|]. split.
    { repeat constructor. }
    split.
    + split; [discriminate|]. intros (c & e & [=] & _).
    + intros e He. now split.
Qed.

(** A failed [createMarketOrder] is followed by [createOrder] with the
    same order: two requests for one signal. *)
Example placeMarketOrder_falls_back :
  LongOnlyServer.placeMarketOrder LongOnlyScenario.config
    (LongOnlyScenario.exchange (Ok None) []) "BTC/USDT" "sell" 0.5
    {| LongOnlyServer.reduceOnly := Some true;
       LongOnlyServer.orderType := None; LongOnlyServer.type := None |}
  = (Ok "order-1",
     let params := {| LongOnlyServer.reduceOnly := Some true;
                      LongOnlyServer.orderType := Some "market";
                      LongOnlyServer.type := Some "market" |} in
     [LongOnlyServer.CreateMarketOrder "BTC/USDT" "sell" 0.5 params;
      LongOnlyServer.CreateOrder "BTC/USDT" "market" "sell" 0.5 params]).
Proof. reflexivity. Qed.

(** X15: the size [computeSellAmount] takes from the positions is the
    first truthy one of the six size fields of a position, it is positive,
    and every position listed before that one either has no truthy size
    field or has a first truthy one that is not positive; there is no
    such size exactly when every position is of that kind. *)
Theorem firstLong_is_first_positive pos :
  let skipped q :=
    forall r, hd_error (LongOnlyServer.sizeCandidates q) = Some r ->
              (0 <? r)%float = false in
  match LongOnlyServer.firstLong pos with
  | Some raw =>
      (0 <? raw)%float = true /\ Js.truthyNum raw = true /\
      exists before p after,
        pos = (before ++ p :: after)%list /\
        hd_error (LongOnlyServer.sizeCandidates p) = Some raw /\
        Forall skipped before
  | None => Forall skipped pos
  end.
Proof.
  cbv zeta. induction pos as [|p rest IH]; [constructor|].
  rewrite firstLong_cons.
  destruct (hd_error (LongOnlyServer.sizeCandidates p)) as [raw|] eqn:Hh.
  - destruct (0 <? raw)%float eqn:Hpos.
    + split; [exact Hpos|]. split.
      * destruct (LongOnlyServer.sizeCandidates p) as [|x l] eqn:E; [discriminate|].
        injection Hh as ->. exact (sizeCandidates_head_truthy _ _ _ E).
      * exists [], p, rest. repeat split; [exact Hh | constructor].
    + assert (Hskip : forall r, Some raw = Some r -> (0 <? r)%float = false)
        by (now intros r [= <-]).
      destruct (LongOnlyServer.firstLong rest) as [raw'|].
      * destruct IH as (H1 & H2 & before & q & after & -> & Hq & Hb).
        split; [exact H1|]. split; [exact H2|].
        exists (p :: before), q, after. repeat split; [exact Hq|].
        constructor; [now rewrite Hh | exact Hb].
      * constructor; [now rewrite Hh | exact IH].
  - assert (Hskip : forall r, @None float = Some r -> (0 <? r)%float = false)
      by discriminate.
    destruct (LongOnlyServer.firstLong rest) as [raw'|].
    + destruct IH as (H1 & H2 & before & q & after & -> & Hq & Hb).
      split; [exact H1|]. split; [exact H2|].
      exists (p :: before), q, after. repeat split; [exact Hq|].
      constructor; [now rewrite Hh | exact Hb].
    + constructor; [now rewrite Hh | exact IH].
Qed.

(** A position whose [contracts] is negative is passed over even when
    its [size] is positive, and a zero [contracts] gives way to [size]. *)
Example firstLong_examples :
  LongOnlyServer.firstLong
    [LongOnlyScenario.sized (Some (-2)%float) (Some 2%float)] = None /\
  LongOnlyServer.firstLong
    [LongOnlyScenario.sized (Some 0%float) (Some 3%float)] = Some 3%float /\
  LongOnlyServer.firstLong
    [LongOnlyScenario.sized (Some (-2)%float) None;
     LongOnlyScenario.sized None (Some 0.5%float)] = Some 0.5%float.
Proof. repeat split; reflexivity. Qed.

Section LongOnlyHandlerFacts.

Variable parseFloat : string -> float.
Variable JSON_parse : string -> Result (option Payload.t).




Lemma tooSmall_false cfg qty :
  LongOnlyServer.tooSmall cfg qty = false ->
  Js.truthyNum qty = true /\
  (qty <=? LongOnlyServer.MIN_AMOUNT cfg)%float = false.
Proof.
  unfold LongOnlyServer.tooSmall. intros H.
  apply orb_false_iff in H as [H H2]. apply orb_false_iff in H as [H1 _].
  apply negb_false_iff in H1. now split.
Qed.

Lemma placeMarketOrder_calls cfg ex symbol side amount extra :
  let res := fst (LongOnlyServer.placeMarketOrder cfg ex symbol side amount extra) in
  let calls := snd (LongOnlyServer.placeMarketOrder cfg ex symbol side amount extra) in
  (1 <= length calls <= 2)%nat /\
  Forall (fun c =>
    LongOnlyServer.callSymbol c = symbol /\
    LongOnlyServer.callSide c = side /\
    LongOnlyServer.callAmount c = amount /\
    LongOnlyServer.callType c = "market" /\
    LongOnlyServer.reduceOnly (LongOnlyServer.callParams c)
    = LongOnlyServer.reduceOnly extra) calls.
Proof.
  cbv zeta.
  destruct (placeMarketOrder_shape cfg ex symbol side amount extra)
    as (params & Hr & _ & H). cbv zeta in H.
  destruct (LongOnlyServer.createMarketOrder ex) as [create|].
  - destruct (create symbol side amount params); rewrite H; cbn [fst snd length];
      (split; [lia|]); repeat constructor; exact Hr.
  - rewrite H; cbn [fst snd length]. split; [lia|]. repeat constructor; exact Hr.
Qed.

Lemma webhook_cases cfg ex req :
  let out := LongOnlyServer.webhook parseFloat JSON_parse cfg ex req in
  (exists r, LongOnlyServer.decideOrder parseFloat JSON_parse cfg ex req = Reply r /\
             out = (r, [])) \/
  (exists e, LongOnlyServer.decideOrder parseFloat JSON_parse cfg ex req = Raise e /\
             out = ({| status := 500; json := ErrorJson e |}, [])) \/
  (exists symbol side qty extra,
     LongOnlyServer.decideOrder parseFloat JSON_parse cfg ex req
     = Next (symbol, side, qty, extra) /\
     snd out = snd (LongOnlyServer.placeMarketOrder cfg ex symbol side qty extra) /\
     fst out =
     match fst (LongOnlyServer.placeMarketOrder cfg ex symbol side qty extra) with
     | Ok order => {| status := 200; json := OrderJson side order |}
     | Throw e => {| status := 500; json := ErrorJson e |}
     end).
Proof.
  cbv zeta. unfold LongOnlyServer.webhook.
  destruct (LongOnlyServer.decideOrder _ _ _ _ _) as [[[[symbol side] qty] extra]|r|e].
  - right; right. exists symbol, side, qty, extra. split; [reflexivity|].
    now destruct (LongOnlyServer.placeMarketOrder _ _ _ _ _ _) as [[order|e] calls].
  - left. now exists r.
  - right; left. now exists e.
Qed.

End LongOnlyHandlerFacts.


(** With a short position listed first and a long one after it, the
    sale is sized by the long one, and the balance, which cannot be
    fetched here, is not needed. *)
Example computeSellAmount_from_position :
  LongOnlyServer.computeSellAmount Scenario.toyParseFloat
    (LongOnlyScenario.exchange (Throw "NetworkError")
       [LongOnlyScenario.sized (Some (-2)%float) None;
        LongOnlyScenario.sized None (Some 0.5%float)])
    "BTC/USDT:USDT"
  = Ok (LongOnlyServer.FromPosition 0.5 0.5).
Proof. reflexivity. Qed.


(** X18: every order request the long-only handler sends is a market
    order for a non-empty symbol, with a quantity that is a non-zero
    number and not at most MIN_AMOUNT; a buy never carries [reduceOnly]
    and a sell carries [reduceOnly: true] exactly on a swap account; one
    signal makes at most two requests, and none when the answer is 400. *)
Theorem long_only_orders parseFloat JSON_parse cfg ex req :
  let resp := fst (LongOnlyServer.webhook parseFloat JSON_parse cfg ex req) in
  let calls := snd (LongOnlyServer.webhook parseFloat JSON_parse cfg ex req) in
  (length calls <= 2)%nat /\
  (status resp = 400%Z -> calls = []) /\
  Forall (fun c =>
    LongOnlyServer.callSymbol c <> "" /\
    LongOnlyServer.callType c = "market" /\
    Js.truthyNum (LongOnlyServer.callAmount c) = true /\
    (LongOnlyServer.callAmount c <=? LongOnlyServer.MIN_AMOUNT cfg)%float = false /\
    ((LongOnlyServer.callSide c = "buy" /\
      LongOnlyServer.reduceOnly (LongOnlyServer.callParams c) = None) \/
     (LongOnlyServer.callSide c = "sell" /\
      LongOnlyServer.reduceOnly (LongOnlyServer.callParams c)
      = if String.eqb (LongOnlyServer.EXCHANGE_TYPE cfg) "swap"
        then Some true else None))) calls.
Proof.
  cbv zeta.
  destruct (webhook_cases parseFloat JSON_parse cfg ex req)
    as [(r & _ & ->) | [(e & _ & ->) | (symbol & side & qty & extra & Hd & -> & ->)]];
    cbn [fst snd length].
  - split; [lia|]. split; [reflexivity | constructor].
  - split; [lia|]. split; [reflexivity | constructor].
  - destruct (long_decideOrder_Next_inv _ _ _ _ _ _ _ _ _ Hd) as (Hne & Hs & Hside).
    destruct (tooSmall_false _ _ Hs) as [Ht Hmin].
    pose proof (placeMarketOrder_calls cfg ex symbol side qty extra) as [Hlen Hall].
    cbv zeta in Hlen, Hall.
    split; [lia|]. split.
    + now destruct (fst (LongOnlyServer.placeMarketOrder _ _ _ _ _ _)).
    + eapply Forall_impl; [exact Hall|]. cbv beta.
      intros c (-> & -> & -> & -> & ->). repeat split; try assumption.
      destruct Hside as [(-> & -> & _) | (-> & -> & _)]; [now left | right].
      split; [reflexivity|].
      now destruct (String.eqb (LongOnlyServer.EXCHANGE_TYPE cfg) "swap").
Qed.


(** A sell signal on the swap account of the test doubles: the long
    position of 0.5 is closed with [reduceOnly], by two requests since
    the first one is rejected. *)
Example long_only_sell_closes_position :
  LongOnlyServer.webhook Scenario.toyParseFloat Scenario.toyParse
    LongOnlyScenario.config
    (LongOnlyScenario.exchange (Throw "NetworkError")
       [LongOnlyScenario.sized (Some (-2)%float) None;
        LongOnlyScenario.sized None (Some 0.5%float)])
    (LongOnlyScenario.jsonRequest (Some "SELL") (Some "btcusdt"))
  = ({| status := 200; json := OrderJson "sell" "order-1" |},
     let params := {| LongOnlyServer.reduceOnly := Some true;
                      LongOnlyServer.orderType := Some "market";
                      LongOnlyServer.type := Some "market" |} in
     [LongOnlyServer.CreateMarketOrder "BTC/USDT" "sell" 0.5 params;
      LongOnlyServer.CreateOrder "BTC/USDT" "market" "sell" 0.5 params]).
Proof. vm_compute. reflexivity. Qed.
